(** * Shopping-cart aggregation of the foodgram backend

    A shallow embedding of [backend/recipes/models.py] (the tables the
    shopping list is computed from) and of [backend/recipes/views.py]
    ([ShoppingCartViewSet] and [download_shopping_cart]), followed by the
    properties of the aggregation: grouping by ingredient name, first-seen
    order, summed amounts, behaviour on null amounts, the rendered page and
    the cart uniqueness invariant.

    Conventions.
    - Python [int] is [Z]; a nullable column is an [option]; [str] is
      [string].
    - A Python [dict] is an association list in insertion order, since
      [dict.items()] iterates in that order and the page is drawn from it.
    - A table is the list of its rows in the order in which the database
      hands them to a query that asks for no order.  The querysets of
      [download_shopping_cart] carry no [order_by], and [ShoppingCart] and
      [RecipeIngredients] declare no [Meta.ordering]: the source fixes no
      such order, and what is proved about order is proved for every list.
    - A view runs in the monad [M]: it threads the database and may raise. *)

From Stdlib Require Import ZArith String Ascii List Bool Lia.
From Stdlib Require Import DecimalString.
From Stdlib Require Import Permutation.
From Stdlib Require Decimal DecimalPos.
Import ListNotations.

Local Open Scope string_scope.
Local Open Scope Z_scope.

Set Implicit Arguments.

(* ------------------------------------------------------------------ *)
(** ** Python values and exceptions *)

Inductive exn : Type :=
| TypeError
| DoesNotExist
| MultipleObjectsReturned
| IntegrityError
| Http404.

Inductive result (A : Type) : Type :=
| Ok (a : A)
| Raise (e : exn).

Arguments Ok {A} a.
Arguments Raise {A} e.

(** [a + b] on values that are an [int] or [None]: only [int + int] is
    defined, every other combination raises [TypeError]. *)
Definition py_add (a b : option Z) : result (option Z) :=
  match a, b with
  | Some x, Some y => Ok (Some (x + y))
  | _, _ => Raise TypeError
  end.

(** [str(v)] for an [int] or [None], as an f-string formats it. *)
Definition py_str (v : option Z) : string :=
  match v with
  | Some z => NilZero.string_of_int (Z.to_int z)
  | None => "None"
  end.

(* ------------------------------------------------------------------ *)
(** ** models.py *)

(** [Ingredient.Unit], a [TextChoices] enumeration, and the value each
    member stores in the [measurement_unit] column. *)
Inductive Unit : Type := GRAM | KILOGRAM.

Definition Unit_value (u : Unit) : string :=
  match u with
  | GRAM => "gram"
  | KILOGRAM => "kilogram"
  end.

Record datetime : Type := mk_datetime {
  year : nat; month : nat; day : nat;
  hour : nat; minute : nat; second : nat
}.

Record Ingredient : Type := mk_Ingredient {
  ingredient_pk : Z;
  ingredient_name : string;
  measurement_unit : string
}.

Record Recipe : Type := mk_Recipe {
  recipe_pk : Z;
  recipe_author : Z;
  recipe_name : string;
  recipe_text : string;
  cooking_time : Z;
  pub_date : datetime
}.

Record RecipeIngredients : Type := mk_RecipeIngredients {
  ri_id : Z;
  ri_recipe : Z;
  ri_ingredient : Z;
  ri_amount : option Z
}.

Record ShoppingCart : Type := mk_ShoppingCart {
  sc_id : Z;
  sc_user : Z;
  sc_recipe : Z;
  added_date : datetime
}.

(** The persisted state: one list of rows per table, and the next primary
    key of the cart table. *)
Record DB : Type := mk_DB {
  ingredients : list Ingredient;
  recipes : list Recipe;
  recipe_ingredients : list RecipeIngredients;
  shopping_cart : list ShoppingCart;
  shopping_cart_seq : Z
}.

(* ------------------------------------------------------------------ *)
(** ** The monad of a view: database state and exceptions *)

Definition M (A : Type) : Type := DB -> result A * DB.

Definition ret {A} (a : A) : M A := fun db => (Ok a, db).

Definition raise {A} (e : exn) : M A := fun db => (Raise e, db).

Definition bind {A B} (m : M A) (k : A -> M B) : M B :=
  fun db =>
    match m db with
    | (Ok a, db') => k a db'
    | (Raise e, db') => (Raise e, db')
    end.

Definition lift {A} (r : result A) : M A := fun db => (r, db).

Definition get_db : M DB := fun db => (Ok db, db).

Definition put_db (db' : DB) : M unit := fun _ => (Ok tt, db').

Notation "x <- m ;; k" := (bind m (fun x => k))
  (at level 61, m at next level, right associativity).

(** [for x in xs: acc = body(x, acc)], leaving at the first exception. *)
Fixpoint for_each {X S} (xs : list X) (body : X -> S -> M S) (acc : S) : M S :=
  match xs with
  | [] => ret acc
  | x :: rest => acc' <- body x acc ;; for_each rest body acc'
  end.

(* ------------------------------------------------------------------ *)
(** ** The queries the views issue *)

(** [Model.objects.get(id=pk)], also the lazy load of a foreign key:
    exactly one row or an exception. *)
Definition get_one {R} (rows : list R) : result R :=
  match rows with
  | [r] => Ok r
  | [] => Raise DoesNotExist
  | _ :: _ :: _ => Raise MultipleObjectsReturned
  end.

(** [user.shopping_cart.all()] *)
Definition user_shopping_cart_all (user : Z) : M (list ShoppingCart) :=
  db <- get_db ;;
  ret (filter (fun r => sc_user r =? user) (shopping_cart db)).

(** [record.recipe] *)
Definition Recipe_get (pk : Z) : M Recipe :=
  db <- get_db ;;
  lift (get_one (filter (fun r => recipe_pk r =? pk) (recipes db))).

(** [RecipeIngredients.objects.filter(recipe=recipe)] *)
Definition RecipeIngredients_filter (recipe : Recipe) : M (list RecipeIngredients) :=
  db <- get_db ;;
  ret (filter (fun r => ri_recipe r =? recipe_pk recipe) (recipe_ingredients db)).

(** [ingredient.ingredient] *)
Definition Ingredient_get (pk : Z) : M Ingredient :=
  db <- get_db ;;
  lift (get_one (filter (fun r => ingredient_pk r =? pk) (ingredients db))).

(* ------------------------------------------------------------------ *)
(** ** The [buying_list] dictionary *)

(** The inner dictionary [{'measurement_unit': ..., 'amount': ...}]. *)
Record Entry : Type := mk_Entry {
  entry_unit : string;
  entry_amount : option Z
}.

Definition Dict : Type := list (string * Entry).

(** [buying_list.get(name)]; [name not in buying_list] is [None]. *)
Fixpoint dict_get (d : Dict) (name : string) : option Entry :=
  match d with
  | [] => None
  | (k, v) :: rest => if String.eqb k name then Some v else dict_get rest name
  end.

(** [buying_list[name] = v]: a present key keeps its place, a new key goes
    last. *)
Fixpoint dict_set (d : Dict) (name : string) (v : Entry) : Dict :=
  match d with
  | [] => [(name, v)]
  | (k, w) :: rest =>
      if String.eqb k name then (k, v) :: rest
      else (k, w) :: dict_set rest name v
  end.

(** The body of the inner loop, lines 154-164. *)
Definition accumulate (buying_list : Dict) (name unit : string) (amount : option Z)
  : result Dict :=
  match dict_get buying_list name with
  | None => Ok (dict_set buying_list name (mk_Entry unit amount))
  | Some e =>
      match py_add (entry_amount e) amount with
      | Ok total => Ok (dict_set buying_list name (mk_Entry (entry_unit e) total))
      | Raise x => Raise x
      end
  end.

Definition inner_body (ingredient : RecipeIngredients) (buying_list : Dict) : M Dict :=
  let amount := ri_amount ingredient in
  ing <- Ingredient_get (ri_ingredient ingredient) ;;
  let name := ingredient_name ing in
  let unit := measurement_unit ing in
  lift (accumulate buying_list name unit amount).

Definition outer_body (record : ShoppingCart) (buying_list : Dict) : M Dict :=
  recipe <- Recipe_get (sc_recipe record) ;;
  ingredients <- RecipeIngredients_filter recipe ;;
  for_each ingredients inner_body buying_list.

(** Lines 147-164 of [download_shopping_cart]: the aggregation. *)
Definition build_buying_list (user : Z) : M Dict :=
  shopping_cart <- user_shopping_cart_all user ;;
  for_each shopping_cart outer_body [].

(* ------------------------------------------------------------------ *)
(** ** The rendered response, lines 165-184 *)

(** The calls made on the [reportlab] canvas, in the order they are made.
    The renderer itself is a library; the page is described by this trace. *)
Inductive CanvasOp : Type :=
| setFont (name : string) (size : Z)
| drawString (x y : Z) (text : string)
| showPage
| save.

Record HttpResponse : Type := mk_HttpResponse {
  content_type : string;
  headers : list (string * string);
  content : list CanvasOp
}.

Definition digit (n : nat) : ascii := ascii_of_nat (48 + n mod 10).

(** A zero-padded two-digit field of [strftime] ([%m %d %H %M %S]). *)
Definition pad2 (n : nat) : string :=
  String (digit (n / 10)) (String (digit n) "").

(** [%Y]: the year in decimal. *)
Definition year_str (y : nat) : string := NilZero.string_of_uint (Nat.to_uint y).

(** [now.strftime("%m/%d/%Y, %H:%M:%S")] *)
Definition strftime (t : datetime) : string :=
  pad2 (month t) ++ "/" ++ pad2 (day t) ++ "/" ++ year_str (year t)
  ++ ", " ++ pad2 (hour t) ++ ":" ++ pad2 (minute t) ++ ":" ++ pad2 (second t).

Definition dquote : string := String (ascii_of_nat 34) "".

(** The f-string of line 179. *)
Definition format_line (name : string) (data : Entry) : string :=
  name ++ " (" ++ entry_unit data ++ ") - " ++ py_str (entry_amount data).

(** The loop of lines 175-181 over [buying_list.items()], with the canvas
    and [height] as its state. *)
Fixpoint draw_items (items : Dict) (p : list CanvasOp) (height : Z)
  : list CanvasOp * Z :=
  match items with
  | [] => (p, height)
  | (name, data) :: rest =>
      draw_items rest (p ++ [drawString 50 height (format_line name data)])%list
                 (height - 25)
  end.

(** Lines 165-184 once [buying_list] is built.  [pdfmetrics.registerFont]
    acts on the font registry of the process, which is no part of the
    response nor of the database. *)
Definition render (buying_list : Dict) (now : datetime) : HttpResponse :=
  let file_name := "buying_list" in
  let now := strftime now in
  let disposition :=
    "attachment;" ++ " filename=" ++ dquote ++ file_name ++ "_" ++ now
    ++ ".pdf" ++ dquote in
  let p := [setFont "DejaVuSerif" 15] in
  let height := 800 in
  let '(p, _) := draw_items buying_list p height in
  let p := (p ++ [showPage])%list in
  let p := (p ++ [save])%list in
  mk_HttpResponse "application/pdf" [("Content-Disposition", disposition)] p.

(** [download_shopping_cart(request)], with [request.user] and the value
    of [datetime.datetime.now()] as inputs. *)
Definition download_shopping_cart (user : Z) (now : datetime) : M HttpResponse :=
  buying_list <- build_buying_list user ;;
  ret (render buying_list now).

(* ------------------------------------------------------------------ *)
(** ** ShoppingCartViewSet *)

Inductive Body : Type :=
| Message (text : string)
| SerializerErrors
| SerializerData (row : ShoppingCart)
| NoBody.

Record Response : Type := mk_Response {
  status : Z;
  body : Body
}.

Definition HTTP_201_CREATED : Z := 201.
Definition HTTP_204_NO_CONTENT : Z := 204.
Definition HTTP_400_BAD_REQUEST : Z := 400.

(** [ShoppingCart.objects.filter(user=..., recipe__id=...)] *)
Definition ShoppingCart_filter (user recipe : Z) : M (list ShoppingCart) :=
  db <- get_db ;;
  ret (filter (fun r => (sc_user r =? user) && (sc_recipe r =? recipe))
              (shopping_cart db)).

(** [queryset.exists()] *)
Definition exists_ {R} (rows : list R) : bool :=
  match rows with
  | [] => false
  | _ :: _ => true
  end.

(** The [UniqueConstraint] on [('user', 'recipe')] of [ShoppingCart.Meta]
    and the foreign key to [Recipe], as the database checks them on
    insertion. *)
Definition insert_allowed (db : DB) (user recipe : Z) : bool :=
  negb (existsb (fun r => (sc_user r =? user) && (sc_recipe r =? recipe))
                (shopping_cart db))
  && existsb (fun r => recipe_pk r =? recipe) (recipes db).

(** [ShoppingCart.objects.create(user=..., recipe=...)]: the new row takes
    the next primary key and [added_date = now] ([auto_now_add]).  Its place
    in the list is the end; no statement about the order of rows rests on
    that place. *)
Definition ShoppingCart_create (user recipe : Z) (now : datetime) : M ShoppingCart :=
  db <- get_db ;;
  if insert_allowed db user recipe then
    let row := mk_ShoppingCart (shopping_cart_seq db) user recipe now in
    _ <- put_db (mk_DB (ingredients db) (recipes db) (recipe_ingredients db)
                       (shopping_cart db ++ [row])%list (shopping_cart_seq db + 1)) ;;
    ret row
  else raise IntegrityError.

(** [instance.delete()] *)
Definition ShoppingCart_delete (row : ShoppingCart) : M unit :=
  db <- get_db ;;
  put_db (mk_DB (ingredients db) (recipes db) (recipe_ingredients db)
                (filter (fun r => negb (sc_id r =? sc_id row)) (shopping_cart db))
                (shopping_cart_seq db)).

(** [get_object_or_404(Recipe, id=recipe_id)] *)
Definition get_Recipe_or_404 (pk : Z) : M Recipe :=
  db <- get_db ;;
  match get_one (filter (fun r => recipe_pk r =? pk) (recipes db)) with
  | Ok r => ret r
  | Raise DoesNotExist => raise Http404
  | Raise e => raise e
  end.

(** [recipe.delete()]: the rows that point to the recipe are declared
    [on_delete=models.CASCADE] and go with it. *)
Definition Recipe_delete (pk : Z) : M unit :=
  db <- get_db ;;
  put_db (mk_DB (ingredients db)
                (filter (fun r => negb (recipe_pk r =? pk)) (recipes db))
                (filter (fun r => negb (ri_recipe r =? pk)) (recipe_ingredients db))
                (filter (fun r => negb (sc_recipe r =? pk)) (shopping_cart db))
                (shopping_cart_seq db)).

Section ShoppingCartViewSet.

(** [ShoppingCartSerializer] lives in [recipes/serializers.py]; what the
    view needs of it is the verdict of [is_valid()] on the request data in
    the current database. *)
Variable is_valid : DB -> Z -> Z -> bool.

(** Modelled from the spec: [ShoppingCartSerializer.save()], declared in
    [recipes/serializers.py]; a cart entry (user, recipe, added timestamp)
    is created on the add-to-cart action. *)
Definition serializer_save (user recipe : Z) (now : datetime) : M ShoppingCart :=
  ShoppingCart_create user recipe now.

(** [ShoppingCartViewSet.get(request, recipe_id)]: add to the cart. *)
Definition ShoppingCartViewSet_get (user recipe_id : Z) (now : datetime)
  : M Response :=
  rows <- ShoppingCart_filter user recipe_id ;;
  let shopping_cart_exist := exists_ rows in
  if shopping_cart_exist then
    ret (mk_Response HTTP_400_BAD_REQUEST (Message "Уже в корзине"))
  else
    db <- get_db ;;
    if negb (is_valid db user recipe_id) then
      ret (mk_Response HTTP_400_BAD_REQUEST SerializerErrors)
    else
      row <- serializer_save user recipe_id now ;;
      ret (mk_Response HTTP_201_CREATED (SerializerData row)).

(** [ShoppingCartViewSet.delete(request, recipe_id)]: remove from the
    cart. *)
Definition ShoppingCartViewSet_delete (user recipe_id : Z) : M Response :=
  recipe <- get_Recipe_or_404 recipe_id ;;
  rows <- ShoppingCart_filter user (recipe_pk recipe) ;;
  if negb (exists_ rows) then
    ret (mk_Response HTTP_400_BAD_REQUEST NoBody)
  else
    rows' <- ShoppingCart_filter user (recipe_pk recipe) ;;
    row <- lift (get_one rows') ;;
    _ <- ShoppingCart_delete row ;;
    ret (mk_Response HTTP_204_NO_CONTENT NoBody).

End ShoppingCartViewSet.

(* ------------------------------------------------------------------ *)
(** ** The vocabulary of the specification *)

(** A recipe-ingredient line with its ingredient resolved: what one turn of
    the inner loop reads. *)
Record Line : Type := mk_Line {
  line_name : string;
  line_unit : string;
  line_amount : option Z
}.

Definition find_recipe (db : DB) (pk : Z) : result Recipe :=
  get_one (filter (fun r => recipe_pk r =? pk) (recipes db)).

Definition find_ingredient (db : DB) (pk : Z) : result Ingredient :=
  get_one (filter (fun r => ingredient_pk r =? pk) (ingredients db)).

Definition line_of (db : DB) (ri : RecipeIngredients) : result Line :=
  match find_ingredient db (ri_ingredient ri) with
  | Ok ing => Ok (mk_Line (ingredient_name ing) (measurement_unit ing) (ri_amount ri))
  | Raise e => Raise e
  end.

(** The lines of the recipe of one cart entry, in the order the query
    returns them; a recipe
    that does not resolve is one failing step. *)
Definition recipe_lines (db : DB) (record : ShoppingCart) : list (result Line) :=
  match find_recipe db (sc_recipe record) with
  | Ok recipe =>
      map (line_of db)
          (filter (fun r => ri_recipe r =? recipe_pk recipe) (recipe_ingredients db))
  | Raise e => [Raise e]
  end.

(** The traversal: the cart entries of the user in the order the query
    returns them, and for each the lines of its recipe in the order their
    query returns them. *)
Definition traversal (db : DB) (user : Z) : list (result Line) :=
  flat_map (recipe_lines db)
           (filter (fun r => sc_user r =? user) (shopping_cart db)).

Fixpoint sequence (steps : list (result Line)) : option (list Line) :=
  match steps with
  | [] => Some []
  | Ok l :: rest =>
      match sequence rest with
      | Some ls => Some (l :: ls)
      | None => None
      end
  | Raise _ :: _ => None
  end.

(** The lines reachable from the cart of [user], when every foreign key on
    the way resolves (the database enforces this). *)
Definition cart_lines (db : DB) (user : Z) : option (list Line) :=
  sequence (traversal db user).

(** The loop over a trace of steps, and over resolved lines. *)
Fixpoint run (steps : list (result Line)) (bl : Dict) : result Dict :=
  match steps with
  | [] => Ok bl
  | Raise e :: _ => Raise e
  | Ok l :: rest =>
      match accumulate bl (line_name l) (line_unit l) (line_amount l) with
      | Ok bl' => run rest bl'
      | Raise e => Raise e
      end
  end.

Fixpoint accumulate_all (lines : list Line) (bl : Dict) : result Dict :=
  match lines with
  | [] => Ok bl
  | l :: rest =>
      match accumulate bl (line_name l) (line_unit l) (line_amount l) with
      | Ok bl' => accumulate_all rest bl'
      | Raise e => Raise e
      end
  end.

(** The distinct names of a sequence, each at its first occurrence. *)
Fixpoint first_seen (names : list string) : list string :=
  match names with
  | [] => []
  | n :: rest => n :: filter (fun m => negb (String.eqb m n)) (first_seen rest)
  end.

Definition lines_named (name : string) (lines : list Line) : list Line :=
  filter (fun l => String.eqb (line_name l) name) lines.

Definition sum_Z (zs : list Z) : Z := fold_right Z.add 0 zs.

(** An entry's amount against the amounts of the lines of its name: an
    integer total is the sum of integer amounts; a null total is the null
    amount of a single line. *)
Definition amount_is_sum (total : option Z) (amounts : list (option Z)) : Prop :=
  match total with
  | Some z => exists zs, amounts = map Some zs /\ z = sum_Z zs
  | None => amounts = [None]
  end.

Definition names_of (d : Dict) : list string := map fst d.

(** What the dictionary holds once [lines] have been accumulated into the
    empty dictionary: the keys are the names in first-seen order, and each
    entry carries the unit of the first line of its name and the total of
    all lines of its name. *)
Definition aggregates (lines : list Line) (bl : Dict) : Prop :=
  names_of bl = first_seen (map line_name lines) /\
  forall n e, dict_get bl n = Some e ->
    exists l0 rest,
      lines_named n lines = l0 :: rest /\
      entry_unit e = line_unit l0 /\
      amount_is_sum (entry_amount e) (map line_amount (l0 :: rest)).

(** The name [n] meets an addition with a null operand: it has two lines
    or more, and one of them has a null amount. *)
Definition null_added (n : string) (lines : list Line) : Prop :=
  (2 <= length (lines_named n lines))%nat /\
  In None (map line_amount (lines_named n lines)).

(** A view leaves the database as it found it. *)
Definition read_only {A} (m : M A) : Prop := forall db, snd (m db) = db.

(** The [drawString] calls of a canvas trace. *)
Fixpoint drawn (ops : list CanvasOp) : list (Z * Z * string) :=
  match ops with
  | [] => []
  | drawString x y text :: rest => (x, y, text) :: drawn rest
  | _ :: rest => drawn rest
  end.

(** The uniqueness invariant of the cart table. *)
Definition cart_unique (db : DB) : Prop :=
  NoDup (map (fun r => (sc_user r, sc_recipe r)) (shopping_cart db)).

Definition is_digit (c : ascii) : bool :=
  (48 <=? nat_of_ascii c)%nat && (nat_of_ascii c <=? 57)%nat.

Definition digit_value (c : ascii) : nat := nat_of_ascii c - 48.

(** The number a string of decimal digits denotes. *)
Definition number_of (s : string) : nat :=
  fold_left (fun acc c => 10 * acc + digit_value c)%nat (list_ascii_of_string s) 0%nat.

(** [s] is the number [n] written with exactly [width] decimal digits. *)
Definition field_ok (width n : nat) (s : string) : bool :=
  (String.length s =? width)%nat
  && forallb is_digit (list_ascii_of_string s)
  && (number_of s =? n)%nat.

(** What [datetime.datetime.now()] can return on a clock set to a year of
    four digits. *)
Definition valid_now (t : datetime) : Prop :=
  (1000 <= year t < 10 * 1000 /\ 1 <= month t <= 12 /\ 1 <= day t <= 31
   /\ hour t < 24 /\ minute t < 60 /\ second t < 60)%nat.

(** The entries of a dictionary under one key. *)
Definition entries_named (name : string) (d : Dict) : Dict :=
  filter (fun kv => String.eqb (fst kv) name) d.

(** The page of a response, or the exception raised in its place. *)
Definition page_of (r : result HttpResponse) : result (list CanvasOp) :=
  match r with
  | Ok resp => Ok (content resp)
  | Raise e => Raise e
  end.

(* ------------------------------------------------------------------ *)
(** ** Decimal notation *)

(** The number a string of decimal digits denotes, as an integer. *)
Definition digits_value (s : string) : Z :=
  fold_left (fun acc c => 10 * acc + Z.of_nat (digit_value c))
            (list_ascii_of_string s) 0.

(** A non-empty string of decimal digits without a leading zero, or "0". *)
Definition canonical_digits (s : string) : bool :=
  match s with
  | EmptyString => false
  | String c rest =>
      forallb is_digit (list_ascii_of_string s)
      && (negb (Ascii.eqb c "0") || String.eqb rest "")
  end.

(** The integer a string denotes in decimal notation: canonical digits,
    after a "-" for a negative number; any other string denotes none. *)
Definition decimal_value (s : string) : option Z :=
  match s with
  | String c rest =>
      if Ascii.eqb c "-" then
        if canonical_digits rest && negb (String.eqb rest "0")
        then Some (- digits_value rest) else None
      else if canonical_digits s then Some (digits_value s) else None
  | EmptyString => None
  end.

(** The text [a] writes the amount: the decimal notation of an integer,
    the word None for a null. *)
Definition amount_text (amount : option Z) (a : string) : Prop :=
  match amount with
  | Some z => decimal_value a = Some z
  | None => a = "None"
  end.

(* ------------------------------------------------------------------ *)
(** ** The order of creation *)




(* ------------------------------------------------------------------ *)
(** ** Further vocabulary: integrity of the tables, pages *)

(** The dictionary entry a line makes when it is the only line of its
    name. *)
Definition entry_of_line (l : Line) : string * Entry :=
  (line_name l, mk_Entry (line_unit l) (line_amount l)).

(** Every foreign key of the cart table and of the recipe-ingredient table
    resolves to exactly one row. *)
Definition fk_ok (db : DB) : Prop :=
  (forall r, In r (shopping_cart db) ->
     exists recipe, find_recipe db (sc_recipe r) = Ok recipe) /\
  (forall ri, In ri (recipe_ingredients db) ->
     exists ing, find_ingredient db (ri_ingredient ri) = Ok ing).

(** The primary keys of the cart table are distinct and below the next key
    to be given out. *)
Definition cart_keys_ok (db : DB) : Prop :=
  NoDup (map sc_id (shopping_cart db)) /\
  forall r, In r (shopping_cart db) -> sc_id r < shopping_cart_seq db.

Definition is_showPage (op : CanvasOp) : bool :=
  match op with
  | showPage => true
  | _ => false
  end.

(** The number of pages a canvas trace ends. *)
Definition pages (ops : list CanvasOp) : nat := length (filter is_showPage ops).

(* ------------------------------------------------------------------ *)
(** ** A small database *)

Definition sample_now : datetime := mk_datetime 2021 8 5 9 7 3.

(** Five recipes over four ingredients; "Sugar" exists under both units.
    User 1 holds two recipes with "Sugar" in grams, user 2 holds "Sugar" in
    grams and in kilograms, user 3 holds nothing, user 4 holds one line
    without an amount, user 5 holds that line and a second "Salt" line. *)
Definition sample_db : DB :=
  mk_DB
    [ mk_Ingredient 1 "Sugar" (Unit_value GRAM);
      mk_Ingredient 2 "Sugar" (Unit_value KILOGRAM);
      mk_Ingredient 3 "Flour" (Unit_value GRAM);
      mk_Ingredient 4 "Salt" (Unit_value GRAM) ]
    [ mk_Recipe 10 1 "Cake" "Bake." 60 sample_now;
      mk_Recipe 11 1 "Jam" "Boil." 30 sample_now;
      mk_Recipe 12 2 "Syrup" "Stir." 10 sample_now;
      mk_Recipe 13 2 "Brine" "Mix." 5 sample_now;
      mk_Recipe 14 2 "Pickles" "Wait." 90 sample_now ]
    [ mk_RecipeIngredients 1 10 3 (Some 200);
      mk_RecipeIngredients 2 10 1 (Some 100);
      mk_RecipeIngredients 3 11 1 (Some 50);
      mk_RecipeIngredients 4 12 2 (Some 2);
      mk_RecipeIngredients 5 13 4 None;
      mk_RecipeIngredients 6 14 4 (Some 5) ]
    [ mk_ShoppingCart 1 1 10 sample_now;
      mk_ShoppingCart 2 1 11 sample_now;
      mk_ShoppingCart 3 2 10 sample_now;
      mk_ShoppingCart 4 2 12 sample_now;
      mk_ShoppingCart 5 4 13 sample_now;
      mk_ShoppingCart 6 5 13 sample_now;
      mk_ShoppingCart 7 5 14 sample_now ]
    8.

(** The small database with the two cart rows of user 1 stored in the other
    order. *)
Definition sample_db_swapped : DB :=
  mk_DB (ingredients sample_db) (recipes sample_db) (recipe_ingredients sample_db)
    [ mk_ShoppingCart 2 1 11 sample_now;
      mk_ShoppingCart 1 1 10 sample_now;
      mk_ShoppingCart 3 2 10 sample_now;
      mk_ShoppingCart 4 2 12 sample_now;
      mk_ShoppingCart 5 4 13 sample_now;
      mk_ShoppingCart 6 5 13 sample_now;
      mk_ShoppingCart 7 5 14 sample_now ]
    8.

(* ------------------------------------------------------------------ *)
(** ** permissions.py *)

(** The user model comes from [get_user_model()]; of a user the code under
    study reads the primary key, [is_superuser] and the verdict of the
    model's own [is_admin()]. *)
Record User : Type := mk_User {
  user_pk : Z;
  is_superuser : bool;
  is_admin : bool
}.

(** [request.user]: Django's [AnonymousUser] or a row of the user model. *)
Inductive RequestUser : Type :=
| AnonymousUser
| LoggedIn (u : User).

Definition is_authenticated (u : RequestUser) : bool :=
  match u with
  | AnonymousUser => false
  | LoggedIn _ => true
  end.

Definition is_anonymous (u : RequestUser) : bool :=
  match u with
  | AnonymousUser => true
  | LoggedIn _ => false
  end.

Record Request : Type := mk_Request {
  request_user : RequestUser;
  request_method : string
}.

(** [view.action]: the name DRF gives the handler being run, or [None]. *)
Record View : Type := mk_View {
  action : option string
}.

(** [rest_framework.permissions.SAFE_METHODS] *)
Definition SAFE_METHODS : list string := ["GET"; "HEAD"; "OPTIONS"].

(** [AdminOrAuthorOrReadOnly.NOT_SAFE_METHOD] *)
Definition NOT_SAFE_METHOD : list string := ["POST"; "PUT"; "PATCH"; "DELETE"].

(** [x in xs] for [x] a string or [None] and [xs] a sequence of strings. *)
Definition py_in (x : option string) (xs : list string) : bool :=
  match x with
  | Some s => existsb (String.eqb s) xs
  | None => false
  end.

(** [AdminOrAuthorOrReadOnly.has_permission] *)
Definition has_permission (request : Request) (view : View) : bool :=
  if py_in (action view) SAFE_METHODS then true
  else if py_in (action view) NOT_SAFE_METHOD then
    is_authenticated (request_user request)
  else true.

(** [AdminOrAuthorOrReadOnly.has_object_permission]; the function falls off
    its end when neither [if] is taken and then returns [None].  Under the
    guard [not request.user.is_anonymous] the user is a row of the user
    model, so [request.user == obj.author] compares primary keys. *)
Definition has_object_permission (request : Request) (view : View) (obj : Recipe)
  : option bool :=
  if py_in (action view) SAFE_METHODS then Some true
  else if py_in (Some (request_method request)) NOT_SAFE_METHOD
          && negb (is_anonymous (request_user request)) then
    match request_user request with
    | LoggedIn u =>
        Some ((user_pk u =? recipe_author obj) || is_superuser u || is_admin u)
    | AnonymousUser => None
    end
  else None.

(** DRF lets a request through when the permission method returned a true
    value. *)
Definition granted (verdict : option bool) : bool :=
  match verdict with
  | Some true => true
  | _ => false
  end.

(* ------------------------------------------------------------------ *)
(** ** users/serializers.py *)

(** The values held by [attrs]: the validated strings of the fields, and
    the user object [validate] adds. *)
Inductive Value : Type :=
| VStr (s : string)
| VUser (u : User).

Definition Attrs : Type := list (string * Value).

(** [attrs.get(key)] *)
Fixpoint attrs_get (attrs : Attrs) (key : string) : option Value :=
  match attrs with
  | [] => None
  | (k, v) :: rest => if String.eqb k key then Some v else attrs_get rest key
  end.

(** [attrs[key] = v] *)
Fixpoint attrs_set (attrs : Attrs) (key : string) (v : Value) : Attrs :=
  match attrs with
  | [] => [(key, v)]
  | (k, w) :: rest =>
      if String.eqb k key then (k, v) :: rest
      else (k, w) :: attrs_set rest key v
  end.

(** The truth value of what [attrs.get] returned: [None] and the empty
    string are false. *)
Definition truthy (v : option Value) : bool :=
  match v with
  | None => false
  | Some (VStr s) => negb (String.eqb s "")
  | Some (VUser _) => true
  end.

Inductive Validated : Type :=
| Valid (attrs : Attrs)
| ValidationError (msg code : string).

Definition msg_unable : string := "Unable to log in with provided credentials.".

Definition msg_must_include : string :=
  "Must include " ++ dquote ++ "username" ++ dquote ++ " and " ++ dquote
  ++ "password" ++ dquote ++ ".".

Section AuthTokenSerializer.

(** [django.contrib.auth.authenticate(request=..., email=..., password=...)]:
    a user or [None]. *)
Variable authenticate : option Value -> option Value -> option User.

(** [AuthTokenSerializer.validate(attrs)] *)
Definition validate (attrs : Attrs) : Validated :=
  let email := attrs_get attrs "email" in
  let password := attrs_get attrs "password" in
  if truthy email && truthy password then
    match authenticate email password with
    | Some user => Valid (attrs_set attrs "user" (VUser user))
    | None => ValidationError msg_unable "authorization"
    end
  else ValidationError msg_must_include "authorization".

End AuthTokenSerializer.

(* ------------------------------------------------------------------ *)
(** ** Favorites and subscriptions: models and views *)

Record Favorite : Type := mk_Favorite {
  fav_id : Z;
  fav_user : Z;
  fav_recipe : Z;
  fav_added_date : datetime
}.

Record Follow : Type := mk_Follow {
  follow_id : Z;
  follow_user : Z;
  follow_author : Z;
  created_at : option datetime
}.

(** The state the favorite and subscription views run on: the tables of
    [DB] and beside them the [Favorite], [Follow] and user tables. *)
Record Site : Type := mk_Site {
  site_db : DB;
  favorite : list Favorite;
  follow : list Follow;
  users : list User
}.

Definition V (A : Type) : Type := Site -> result A * Site.

Definition vret {A} (a : A) : V A := fun s => (Ok a, s).

Definition vraise {A} (e : exn) : V A := fun s => (Raise e, s).

Definition vbind {A B} (m : V A) (k : A -> V B) : V B :=
  fun s =>
    match m s with
    | (Ok a, s') => k a s'
    | (Raise e, s') => (Raise e, s')
    end.

Definition vlift {A} (r : result A) : V A := fun s => (r, s).

Definition get_site : V Site := fun s => (Ok s, s).

Definition put_site (s' : Site) : V unit := fun _ => (Ok tt, s').

(** A view of [M], run on the [DB] part of the state. *)
Definition in_db {A} (m : M A) : V A :=
  fun s =>
    let '(r, db') := m (site_db s) in
    (r, mk_Site db' (favorite s) (follow s) (users s)).

Notation "x <~ m ;; k" := (vbind m (fun x => k))
  (at level 61, m at next level, right associativity).

(** The body of a DRF [Response] of these views. *)
Inductive Payload (R : Type) : Type :=
| PayMessage (text : string)
| PayErrors
| PayData (row : R)
| PayNone.

Arguments PayMessage {R} text.
Arguments PayErrors {R}.
Arguments PayData {R} row.
Arguments PayNone {R}.

Record Reply (R : Type) : Type := mk_Reply {
  reply_status : Z;
  reply_body : Payload R
}.

(** [get_object_or_404(Model, ...)] on the rows a filter selected. *)
Definition get_or_404 {R} (rows : list R) : result R :=
  match get_one rows with
  | Ok r => Ok r
  | Raise DoesNotExist => Raise Http404
  | Raise e => Raise e
  end.

(** [Favorite.objects.filter(user=user, recipe=recipe)] *)
Definition Favorite_filter (s : Site) (user recipe : Z) : list Favorite :=
  filter (fun r => (fav_user r =? user) && (fav_recipe r =? recipe)) (favorite s).

(** [Follow.objects.filter(user=user, author=author)] *)
Definition Follow_filter (s : Site) (user author : Z) : list Follow :=
  filter (fun r => (follow_user r =? user) && (follow_author r =? author)) (follow s).

(** [instance.delete()] on a [Favorite] row *)
Definition Favorite_delete (row : Favorite) : V unit :=
  s <~ get_site ;;
  put_site (mk_Site (site_db s)
              (filter (fun r => negb (fav_id r =? fav_id row)) (favorite s))
              (follow s) (users s)).

(** [instance.delete()] on a [Follow] row *)
Definition Follow_delete (row : Follow) : V unit :=
  s <~ get_site ;;
  put_site (mk_Site (site_db s) (favorite s)
              (filter (fun r => negb (follow_id r =? follow_id row)) (follow s))
              (users s)).

Section FavoriteViewSet.

(** [FavoriteSerializer] lives in [recipes/serializers.py]: the verdict of
    [is_valid()] and the effect of [save()] are taken as given. *)
Variable is_valid : Site -> Z -> Z -> bool.
Variable save : Z -> Z -> datetime -> V Favorite.

(** [FavoriteViewSet.get(request, recipe_id)] *)
Definition FavoriteViewSet_get (user recipe_id : Z) (now : datetime)
  : V (Reply Favorite) :=
  s <~ get_site ;;
  if exists_ (Favorite_filter s user recipe_id) then
    vret (mk_Reply HTTP_400_BAD_REQUEST
            (PayMessage "Рецепт уже добавлен в избранное"))
  else if negb (is_valid s user recipe_id) then
    vret (mk_Reply HTTP_400_BAD_REQUEST PayErrors)
  else
    row <~ save user recipe_id now ;;
    vret (mk_Reply HTTP_201_CREATED (PayData row)).

End FavoriteViewSet.

(** [FavoriteViewSet.delete(request, recipe_id)] *)
Definition FavoriteViewSet_delete (user recipe_id : Z) : V (Reply Favorite) :=
  recipe <~ in_db (get_Recipe_or_404 recipe_id) ;;
  s <~ get_site ;;
  if negb (exists_ (Favorite_filter s user (recipe_pk recipe))) then
    vret (mk_Reply HTTP_400_BAD_REQUEST PayNone)
  else
    s' <~ get_site ;;
    row <~ vlift (get_one (Favorite_filter s' user (recipe_pk recipe))) ;;
    _ <~ Favorite_delete row ;;
    vret (mk_Reply HTTP_204_NO_CONTENT PayNone).

Section FollowViewSet.

(** [FollowSerializer] lives in [recipes/serializers.py]: the verdict of
    [is_valid()] and the effect of [save()] are taken as given. *)
Variable is_valid : Site -> Z -> Z -> bool.
Variable save : Z -> Z -> datetime -> V Follow.

(** [FollowViewSet.get(request, author_id)] *)
Definition FollowViewSet_get (user author_id : Z) (now : datetime)
  : V (Reply Follow) :=
  s <~ get_site ;;
  let follow_exist := exists_ (Follow_filter s user author_id) in
  if (user =? author_id) || follow_exist then
    vret (mk_Reply HTTP_400_BAD_REQUEST
            (PayMessage "Невозможно подписаться на самого себя"))
  else if negb (is_valid s user author_id) then
    vret (mk_Reply HTTP_400_BAD_REQUEST PayErrors)
  else
    row <~ save user author_id now ;;
    vret (mk_Reply HTTP_201_CREATED (PayData row)).

End FollowViewSet.

(** [FollowViewSet.delete(request, author_id)] *)
Definition FollowViewSet_delete (user author_id : Z) : V (Reply Follow) :=
  s <~ get_site ;;
  author <~ vlift (get_or_404 (filter (fun u => user_pk u =? author_id) (users s))) ;;
  s' <~ get_site ;;
  record <~ vlift (get_or_404 (Follow_filter s' user (user_pk author))) ;;
  _ <~ Follow_delete record ;;
  vret (mk_Reply HTTP_204_NO_CONTENT PayNone).

(** [ListFollowViewSet.get_queryset]:
    [User.objects.filter(following__user=request.user)], the join of the
    user table with the [Follow] rows that name the user as author: one
    result per matching row. *)
Definition ListFollowViewSet_get_queryset (s : Site) (user : Z) : list User :=
  flat_map (fun u =>
              map (fun _ => u)
                  (filter (fun f => (follow_author f =? user_pk u)
                                    && (follow_user f =? user))
                          (follow s)))
           (users s).

(** No (user, author) pair occurs twice in the [Follow] table
    ([unique_follow]). *)
Definition follow_unique (s : Site) : Prop :=
  NoDup (map (fun f => (follow_user f, follow_author f)) (follow s)).

(** No (user, recipe) pair occurs twice in the [Favorite] table
    ([unique_favorite]). *)
Definition favorite_unique (s : Site) : Prop :=
  NoDup (map (fun f => (fav_user f, fav_recipe f)) (favorite s)).

(** A small site over the small database: user 1 has recipe 10 among the
    favorites and follows user 2. *)
Definition sample_site : Site :=
  mk_Site sample_db
    [ mk_Favorite 1 1 10 sample_now; mk_Favorite 2 2 10 sample_now ]
    [ mk_Follow 1 1 2 (Some sample_now); mk_Follow 2 2 1 (Some sample_now) ]
    [ mk_User 1 false false; mk_User 2 false false; mk_User 3 true false ].

(* ------------------------------------------------------------------ *)
(** ** The download view from the request on *)

(** What a request to the view can end in besides a response: the
    exceptions of the loops, [AttributeError] and [TTFError]. *)
Inductive Failure : Type :=
| AttributeError
| TTFError
| Raised (e : exn).

Inductive Served : Type :=
| Answered (resp : HttpResponse)
| Failed (f : Failure).

(** [download_shopping_cart(request)] with [request.user] as Django passes
    it.  The view declares no permission class of its own, so the user may
    be [AnonymousUser], which has no [shopping_cart]: line 148 then raises
    [AttributeError].  Line 167 opens the font file; [font_loads] tells
    whether [TTFont('DejaVuSerif', 'DejaVuSerif.ttf')] finds and reads it,
    and the call raises [TTFError] when it does not. *)
Definition download_shopping_cart_request
  (request : Request) (font_loads : bool) (now : datetime) (db : DB) : Served * DB :=
  match request_user request with
  | AnonymousUser => (Failed AttributeError, db)
  | LoggedIn user =>
      match build_buying_list (user_pk user) db with
      | (Raise e, db') => (Failed (Raised e), db')
      | (Ok buying_list, db') =>
          if font_loads then (Answered (render buying_list now), db')
          else (Failed TTFError, db')
      end
  end.

(* ================================================================== *)
(** * Properties *)

(* ------------------------------------------------------------------ *)
(** ** The loops as a fold over the traversal *)

Lemma run_app : forall s1 s2 bl,
  run (s1 ++ s2) bl =
  match run s1 bl with
  | Ok bl' => run s2 bl'
  | Raise e => Raise e
  end.
Proof.
  induction s1 as [|[l|e] s1 IH]; intros s2 bl; simpl; auto.
  destruct (accumulate bl (line_name l) (line_unit l) (line_amount l)); auto.
Qed.

Lemma inner_body_run : forall db ingredient bl,
  inner_body ingredient bl db = (run [line_of db ingredient] bl, db).
Proof.
  intros db ingredient bl.
  unfold inner_body, Ingredient_get, line_of, find_ingredient, bind, get_db, lift.
  simpl.
  destruct (get_one _) as [ing|e]; simpl; auto.
  destruct (accumulate _ _ _ _); auto.
Qed.

Lemma inner_loop_run : forall db rows bl,
  for_each rows inner_body bl db = (run (map (line_of db) rows) bl, db).
Proof.
  intros db rows; induction rows as [|r rows IH]; intros bl.
  - reflexivity.
  - change (map (line_of db) (r :: rows))
      with ([line_of db r] ++ map (line_of db) rows)%list.
    rewrite run_app. simpl for_each. unfold bind at 1.
    rewrite inner_body_run.
    destruct (run [line_of db r] bl) as [bl'|e]; auto.
Qed.

Lemma outer_body_run : forall db record bl,
  outer_body record bl db = (run (recipe_lines db record) bl, db).
Proof.
  intros db record bl.
  unfold outer_body, Recipe_get, RecipeIngredients_filter, recipe_lines, find_recipe.
  unfold bind, get_db, lift, ret. simpl.
  destruct (get_one _) as [recipe|e]; simpl; auto.
  apply inner_loop_run.
Qed.

Lemma outer_loop_run : forall db records bl,
  for_each records outer_body bl db = (run (flat_map (recipe_lines db) records) bl, db).
Proof.
  intros db records; induction records as [|r records IH]; intros bl.
  - reflexivity.
  - simpl flat_map. rewrite run_app. simpl for_each. unfold bind at 1.
    rewrite outer_body_run.
    destruct (run (recipe_lines db r) bl) as [bl'|e]; auto.
Qed.

(** The aggregation is the fold of [accumulate] over the traversal, and it
    returns the database it was given. *)
Lemma build_buying_list_run : forall user db,
  build_buying_list user db = (run (traversal db user) [], db).
Proof.
  intros user db. unfold build_buying_list, user_shopping_cart_all, traversal.
  unfold bind, get_db, ret. simpl. apply outer_loop_run.
Qed.

Lemma run_sequence : forall steps lines bl,
  sequence steps = Some lines -> run steps bl = accumulate_all lines bl.
Proof.
  induction steps as [|[l|e] steps IH]; intros lines bl H; simpl in H.
  - inversion H; reflexivity.
  - destruct (sequence steps) as [ls|] eqn:E; inversion H; subst; simpl.
    destruct (accumulate _ _ _ _); auto.
  - discriminate.
Qed.

Lemma accumulate_raises_TypeError : forall bl n u a e,
  accumulate bl n u a = Raise e -> e = TypeError.
Proof.
  intros bl n u a e. unfold accumulate, py_add.
  destruct (dict_get bl n) as [en|]; [|discriminate].
  destruct (entry_amount en), a; intro H; inversion H; reflexivity.
Qed.

Lemma run_ok_sequence : forall steps bl bl',
  run steps bl = Ok bl' -> exists lines, sequence steps = Some lines.
Proof.
  induction steps as [|[l|e] steps IH]; intros bl bl' H; simpl in *.
  - eauto.
  - destruct (accumulate _ _ _ _) as [b|]; [|discriminate].
    destruct (IH _ _ H) as [ls ->]. eauto.
  - discriminate.
Qed.

Lemma build_ok_lines : forall user db bl db',
  build_buying_list user db = (Ok bl, db') ->
  db' = db /\ exists lines,
    cart_lines db user = Some lines /\ accumulate_all lines [] = Ok bl.
Proof.
  intros user db bl db' H. rewrite build_buying_list_run in H.
  injection H as Hr Hd. subst db'. split; [reflexivity|].
  destruct (run_ok_sequence _ _ Hr) as [lines Hs].
  exists lines. split; [exact Hs|].
  rewrite (run_sequence _ [] Hs) in Hr. exact Hr.
Qed.

Lemma build_of_lines : forall user db lines,
  cart_lines db user = Some lines ->
  build_buying_list user db = (accumulate_all lines [], db).
Proof.
  intros user db lines H. rewrite build_buying_list_run.
  f_equal. apply run_sequence. exact H.
Qed.

(* ------------------------------------------------------------------ *)
(** ** The dictionary *)

Lemma dict_get_None : forall d n,
  dict_get d n = None <-> ~ In n (names_of d).
Proof.
  induction d as [|[k v] d IH]; intros n; simpl.
  - tauto.
  - destruct (String.eqb k n) eqn:E.
    + apply String.eqb_eq in E. split; [discriminate|]. intros H; exfalso; auto.
    + apply String.eqb_neq in E. rewrite IH. tauto.
Qed.

Lemma dict_get_Some_In : forall d n e,
  dict_get d n = Some e -> In (n, e) d.
Proof.
  induction d as [|[k v] d IH]; intros n e; simpl; [discriminate|].
  destruct (String.eqb k n) eqn:E.
  - apply String.eqb_eq in E. intros H; inversion H; subst; auto.
  - auto.
Qed.

Lemma In_dict_get : forall d n e,
  NoDup (names_of d) -> In (n, e) d -> dict_get d n = Some e.
Proof.
  induction d as [|[k v] d IH]; intros n e ND HIn; simpl in *; [tauto|].
  inversion ND as [|? ? Hk ND']; subst.
  destruct HIn as [H|H].
  - inversion H; subst. rewrite String.eqb_refl. reflexivity.
  - destruct (String.eqb k n) eqn:E.
    + apply String.eqb_eq in E; subst. exfalso. apply Hk.
      change n with (fst (n, e)). apply in_map. exact H.
    + auto.
Qed.

Lemma dict_set_new : forall d n v,
  dict_get d n = None -> dict_set d n v = (d ++ [(n, v)])%list.
Proof.
  induction d as [|[k w] d IH]; intros n v; simpl; auto.
  destruct (String.eqb k n); [discriminate|].
  intros H. rewrite IH; auto.
Qed.

Lemma dict_set_names : forall d n e v,
  dict_get d n = Some e -> names_of (dict_set d n v) = names_of d.
Proof.
  induction d as [|[k w] d IH]; intros n e v; simpl; [discriminate|].
  destruct (String.eqb k n) eqn:E; simpl; auto.
  intros H. f_equal. eapply IH; eauto.
Qed.

Lemma dict_get_set_same : forall d n v,
  dict_get (dict_set d n v) n = Some v.
Proof.
  induction d as [|[k w] d IH]; intros n v; simpl.
  - rewrite String.eqb_refl; reflexivity.
  - destruct (String.eqb k n) eqn:E; simpl; rewrite E; auto.
Qed.

Lemma dict_get_set_other : forall d n m v,
  m <> n -> dict_get (dict_set d n v) m = dict_get d m.
Proof.
  induction d as [|[k w] d IH]; intros n m v Hne; simpl.
  - destruct (String.eqb n m) eqn:E; auto.
    apply String.eqb_eq in E; congruence.
  - destruct (String.eqb k n) eqn:E; simpl.
    + apply String.eqb_eq in E; subst k.
      destruct (String.eqb n m) eqn:E'; auto.
      apply String.eqb_eq in E'; congruence.
    + destruct (String.eqb k m); auto.
Qed.

(* ------------------------------------------------------------------ *)
(** ** First-seen order *)

Lemma first_seen_In : forall names x,
  In x (first_seen names) <-> In x names.
Proof.
  induction names as [|n names IH]; intros x; simpl; [tauto|].
  rewrite filter_In, IH.
  destruct (String.eqb x n) eqn:E.
  - apply String.eqb_eq in E; subst. simpl. intuition discriminate.
  - apply String.eqb_neq in E. simpl. intuition congruence.
Qed.

Lemma first_seen_NoDup : forall names, NoDup (first_seen names).
Proof.
  induction names as [|n names IH]; simpl; constructor.
  - rewrite filter_In, String.eqb_refl. simpl. intros [_ H]; discriminate.
  - apply NoDup_filter. exact IH.
Qed.

Lemma first_seen_snoc : forall names n,
  first_seen (names ++ [n]) =
  if in_dec string_dec n names then first_seen names
  else (first_seen names ++ [n])%list.
Proof.
  induction names as [|a names IH]; intros n; simpl.
  - reflexivity.
  - rewrite IH. destruct (in_dec string_dec n names) as [Hi|Hn].
    + destruct (string_dec a n); reflexivity.
    + rewrite filter_app. simpl.
      destruct (string_dec a n) as [->|Hne].
      * rewrite String.eqb_refl. simpl. rewrite app_nil_r. reflexivity.
      * destruct (String.eqb n a) eqn:E.
        -- apply String.eqb_eq in E; congruence.
        -- simpl. destruct (in_dec string_dec n names); [contradiction|].
           reflexivity.
Qed.

Lemma first_seen_snoc_old : forall names n,
  In n names -> first_seen (names ++ [n]) = first_seen names.
Proof.
  intros names n H. rewrite first_seen_snoc.
  destruct (in_dec string_dec n names); [reflexivity|contradiction].
Qed.

Lemma first_seen_snoc_new : forall names n,
  ~ In n names -> first_seen (names ++ [n]) = (first_seen names ++ [n])%list.
Proof.
  intros names n H. rewrite first_seen_snoc.
  destruct (in_dec string_dec n names); [contradiction|reflexivity].
Qed.

(* ------------------------------------------------------------------ *)
(** ** The invariant of the accumulation *)

Lemma lines_named_app : forall n l1 l2,
  lines_named n (l1 ++ l2) = (lines_named n l1 ++ lines_named n l2)%list.
Proof. intros. apply filter_app. Qed.

Lemma lines_named_nil : forall n lines,
  ~ In n (map line_name lines) -> lines_named n lines = [].
Proof.
  induction lines as [|l lines IH]; simpl; intros H; auto.
  destruct (String.eqb (line_name l) n) eqn:E.
  - apply String.eqb_eq in E. tauto.
  - apply IH. tauto.
Qed.

Lemma lines_named_one : forall n l,
  lines_named n [l] = if String.eqb (line_name l) n then [l] else [].
Proof. reflexivity. Qed.

Lemma lines_named_head : forall n lines l0 rest,
  lines_named n lines = l0 :: rest -> In l0 lines /\ line_name l0 = n.
Proof.
  intros n lines l0 rest H.
  assert (Hm : In l0 (lines_named n lines)) by (rewrite H; left; reflexivity).
  apply filter_In in Hm. destruct Hm as [Hm He].
  apply String.eqb_eq in He. split; assumption.
Qed.

Lemma lines_named_head_seen : forall n lines l0 rest,
  lines_named n lines = l0 :: rest -> In n (map line_name lines).
Proof.
  intros n lines l0 rest H. destruct (lines_named_head _ _ H) as [Hm <-].
  apply in_map. exact Hm.
Qed.

Lemma sum_Z_app : forall xs ys, sum_Z (xs ++ ys) = sum_Z xs + sum_Z ys.
Proof.
  induction xs as [|x xs IH]; intros ys; simpl; [reflexivity|].
  rewrite IH. lia.
Qed.

Lemma accumulate_all_snoc : forall lines l bl,
  accumulate_all (lines ++ [l]) bl =
  match accumulate_all lines bl with
  | Ok bl' => accumulate bl' (line_name l) (line_unit l) (line_amount l)
  | Raise e => Raise e
  end.
Proof.
  induction lines as [|a lines IH]; intros l bl; simpl.
  - destruct (accumulate bl _ _ _); reflexivity.
  - destruct (accumulate bl (line_name a) _ _); auto.
Qed.

Lemma aggregates_nil : aggregates [] [].
Proof. split; [reflexivity|]. intros n e H; discriminate. Qed.

Lemma aggregates_step : forall lines bl l bl',
  aggregates lines bl ->
  accumulate bl (line_name l) (line_unit l) (line_amount l) = Ok bl' ->
  aggregates (lines ++ [l]) bl'.
Proof.
  intros lines bl l bl' [Hnames Hentries] Hacc.
  unfold accumulate in Hacc.
  destruct (dict_get bl (line_name l)) as [e|] eqn:Hget.
  - (* the name is already a key: the amount is added in place *)
    destruct (py_add (entry_amount e) (line_amount l)) as [total|] eqn:Hadd;
      [|discriminate].
    injection Hacc as <-.
    assert (Hin : In (line_name l) (map line_name lines)).
    { rewrite <- first_seen_In, <- Hnames. apply dict_get_Some_In in Hget.
      change (line_name l) with (fst (line_name l, e)). apply in_map. exact Hget. }
    split.
    + rewrite (dict_set_names _ _ _ Hget), map_app. simpl.
      rewrite first_seen_snoc_old; auto.
    + intros n e' Hn. destruct (string_dec n (line_name l)) as [->|Hne].
      * rewrite dict_get_set_same in Hn. injection Hn as <-. simpl.
        destruct (Hentries _ _ Hget) as (l0 & rest & Hl & Hu & Ha).
        exists l0, (rest ++ [l])%list. split; [|split].
        -- rewrite lines_named_app, Hl, lines_named_one, String.eqb_refl.
           reflexivity.
        -- exact Hu.
        -- unfold py_add in Hadd.
           destruct (entry_amount e) as [x|]; [|discriminate].
           destruct (line_amount l) as [y|] eqn:Hy; [|discriminate].
           injection Hadd as <-. simpl in Ha. destruct Ha as (zs & Hzs & Hx).
           exists (zs ++ [y])%list. split.
           ++ change (line_amount l0 :: map line_amount (rest ++ [l]))
                with (map line_amount ((l0 :: rest) ++ [l])).
              rewrite !map_app. simpl map at 2. rewrite Hy.
              change (map line_amount (l0 :: rest)) with
                (line_amount l0 :: map line_amount rest).
              rewrite Hzs. reflexivity.
           ++ rewrite sum_Z_app. simpl. lia.
      * rewrite dict_get_set_other in Hn by exact Hne.
        destruct (Hentries _ _ Hn) as (l0 & rest & Hl & Hu & Ha).
        exists l0, rest. split; [|split]; auto.
        rewrite lines_named_app, Hl, lines_named_one.
        destruct (String.eqb (line_name l) n) eqn:E.
        -- apply String.eqb_eq in E; congruence.
        -- apply app_nil_r.
  - (* a new name: the entry goes last *)
    injection Hacc as <-.
    assert (Hnot : ~ In (line_name l) (map line_name lines)).
    { rewrite <- first_seen_In, <- Hnames. apply dict_get_None. exact Hget. }
    rewrite (dict_set_new _ _ _ Hget).
    split.
    + unfold names_of in *. rewrite !map_app. simpl.
      rewrite first_seen_snoc_new by exact Hnot. rewrite Hnames. reflexivity.
    + intros n e' Hn. destruct (string_dec n (line_name l)) as [->|Hne].
      * rewrite <- (dict_set_new _ _ _ Hget), dict_get_set_same in Hn.
        injection Hn as <-. exists l, []. simpl. split; [|split]; auto.
        -- rewrite lines_named_app, (lines_named_nil _ _ Hnot), lines_named_one,
             String.eqb_refl. reflexivity.
        -- destruct (line_amount l) as [y|]; simpl; auto.
           exists [y]. simpl. split; [reflexivity|lia].
      * rewrite <- (dict_set_new _ _ _ Hget), dict_get_set_other in Hn by exact Hne.
        destruct (Hentries _ _ Hn) as (l0 & rest & Hl & Hu & Ha).
        exists l0, rest. split; [|split]; auto.
        rewrite lines_named_app, Hl, lines_named_one.
        destruct (String.eqb (line_name l) n) eqn:E.
        -- apply String.eqb_eq in E; congruence.
        -- apply app_nil_r.
Qed.

Lemma accumulate_all_aggregates : forall lines bl,
  accumulate_all lines [] = Ok bl -> aggregates lines bl.
Proof.
  induction lines as [|l lines IH] using rev_ind; intros bl H.
  - injection H as <-. apply aggregates_nil.
  - rewrite accumulate_all_snoc in H.
    destruct (accumulate_all lines []) as [bl0|] eqn:E; [|discriminate].
    eapply aggregates_step; eauto.
Qed.

Lemma aggregates_NoDup : forall lines bl,
  aggregates lines bl -> NoDup (names_of bl).
Proof. intros lines bl [H _]. rewrite H. apply first_seen_NoDup. Qed.

(* ------------------------------------------------------------------ *)
(** ** Null amounts *)

Lemma accumulate_all_raises_TypeError : forall lines bl e,
  accumulate_all lines bl = Raise e -> e = TypeError.
Proof.
  induction lines as [|l lines IH]; intros bl e; simpl; [discriminate|].
  destruct (accumulate bl _ _ _) eqn:E.
  - apply IH.
  - intros H; injection H as <-. eapply accumulate_raises_TypeError; eauto.
Qed.

Lemma null_added_snoc : forall n lines l,
  null_added n lines -> null_added n (lines ++ [l]).
Proof.
  intros n lines l [Hlen Hin]. unfold null_added.
  rewrite lines_named_app, length_app, map_app. split; [lia|].
  apply in_or_app; auto.
Qed.

Lemma aggregates_not_null_added : forall lines bl n,
  aggregates lines bl -> ~ null_added n lines.
Proof.
  intros lines bl n Hagg [Hlen Hin].
  destruct (lines_named n lines) as [|l0 rest] eqn:Hl; [simpl in Hlen; lia|].
  assert (Hkey : In n (names_of bl)).
  { destruct Hagg as [-> _]. apply first_seen_In.
    apply (lines_named_head_seen _ _ Hl). }
  destruct (dict_get bl n) as [e|] eqn:Hget.
  - destruct Hagg as [_ Hent].
    destruct (Hent _ _ Hget) as (l0' & rest' & Hl' & _ & Ha).
    rewrite Hl in Hl'. injection Hl' as <- <-.
    unfold amount_is_sum in Ha. destruct (entry_amount e) as [z|].
    + destruct Ha as (zs & Hzs & _). rewrite Hzs in Hin.
      apply in_map_iff in Hin. destruct Hin as (x & Hx & _). discriminate.
    + simpl in Ha. injection Ha as _ Hrest.
      apply map_eq_nil in Hrest. subst rest. simpl in Hlen. lia.
  - apply dict_get_None in Hget. contradiction.
Qed.

Lemma accumulate_all_raise_null_added : forall lines e,
  accumulate_all lines [] = Raise e -> exists n, null_added n lines.
Proof.
  induction lines as [|l lines IH] using rev_ind; intros e H; [discriminate|].
  rewrite accumulate_all_snoc in H.
  destruct (accumulate_all lines []) as [bl|e0] eqn:E.
  - apply accumulate_all_aggregates in E. destruct E as [Hnames Hent].
    unfold accumulate in H.
    destruct (dict_get bl (line_name l)) as [en|] eqn:Hget; [|discriminate].
    destruct (Hent _ _ Hget) as (l0 & rest & Hl & _ & Ha).
    exists (line_name l). unfold null_added.
    rewrite lines_named_app, Hl, lines_named_one, String.eqb_refl.
    split; [simpl; rewrite length_app; simpl; lia|].
    unfold py_add in H. unfold amount_is_sum in Ha.
    destruct (entry_amount en) as [x|].
    + destruct (line_amount l) as [y|] eqn:Hy; [discriminate|].
      rewrite map_app. apply in_or_app. right. simpl. auto.
    + simpl in Ha. injection Ha as Ha _. simpl. left. exact Ha.
  - destruct (IH _ eq_refl) as [n Hn]. exists n. apply null_added_snoc. exact Hn.
Qed.

(** The accumulation raises exactly when a null amount meets an addition,
    and what it raises is [TypeError]. *)
Lemma accumulate_all_TypeError_iff : forall lines,
  accumulate_all lines [] = Raise TypeError <-> exists n, null_added n lines.
Proof.
  intros lines. split.
  - apply accumulate_all_raise_null_added.
  - intros [n Hn]. destruct (accumulate_all lines []) as [bl|e] eqn:E.
    + exfalso. eapply aggregates_not_null_added; eauto.
      apply accumulate_all_aggregates; exact E.
    + f_equal. eapply accumulate_all_raises_TypeError; eauto.
Qed.

Lemma accumulate_all_non_null : forall lines,
  (forall l, In l lines -> line_amount l <> None) ->
  exists bl, accumulate_all lines [] = Ok bl /\
    forall n e, In (n, e) bl -> exists z, entry_amount e = Some z.
Proof.
  intros lines Hall.
  destruct (accumulate_all lines []) as [bl|e] eqn:E.
  - exists bl. split; [reflexivity|]. intros n e HIn.
    pose proof (accumulate_all_aggregates _ E) as Hagg.
    apply In_dict_get in HIn; [|eapply aggregates_NoDup; eauto].
    destruct Hagg as [_ Hent].
    destruct (Hent _ _ HIn) as (l0 & rest & Hl & _ & Ha).
    destruct (entry_amount e) as [z|]; [eauto|]. exfalso.
    simpl in Ha. injection Ha as Ha _.
    apply (Hall l0); [|exact Ha].
    apply (lines_named_head _ _ Hl).
  - exfalso. destruct (accumulate_all_raise_null_added _ E) as [n [_ Hin]].
    apply in_map_iff in Hin. destruct Hin as (l & Hnone & Hl).
    apply filter_In in Hl. apply (Hall l); tauto.
Qed.

(* ------------------------------------------------------------------ *)
(** ** The aggregation on the small database *)

Example cart_of_user_1 :
  build_buying_list 1 sample_db =
  (Ok [("Flour", mk_Entry "gram" (Some 200)); ("Sugar", mk_Entry "gram" (Some 150))],
   sample_db).
Proof. reflexivity. Qed.

Example cart_of_user_2 :
  build_buying_list 2 sample_db =
  (Ok [("Flour", mk_Entry "gram" (Some 200)); ("Sugar", mk_Entry "gram" (Some 102))],
   sample_db).
Proof. reflexivity. Qed.

Example cart_of_user_4 :
  build_buying_list 4 sample_db = (Ok [("Salt", mk_Entry "gram" None)], sample_db).
Proof. reflexivity. Qed.

Example cart_of_user_5 :
  build_buying_list 5 sample_db = (Raise TypeError, sample_db).
Proof. reflexivity. Qed.

Example page_of_user_1 :
  fst (download_shopping_cart 1 sample_now sample_db) =
  Ok (mk_HttpResponse "application/pdf"
        [("Content-Disposition",
          "attachment; filename=" ++ dquote ++ "buying_list_08/05/2021, 09:07:03.pdf"
          ++ dquote)]
        [setFont "DejaVuSerif" 15;
         drawString 50 800 "Flour (gram) - 200";
         drawString 50 775 "Sugar (gram) - 150";
         showPage; save]).
Proof. reflexivity. Qed.

Example page_of_user_4 :
  drawn (match fst (download_shopping_cart 4 sample_now sample_db) with
         | Ok r => content r
         | Raise _ => []
         end) = [(50, 800, "Salt (gram) - None")].
Proof. reflexivity. Qed.

(* ------------------------------------------------------------------ *)
(** ** Grouping by name *)

Lemma entries_named_absent : forall d n,
  ~ In n (names_of d) -> entries_named n d = [].
Proof.
  induction d as [|[k v] d IH]; intros n H; simpl in *; auto.
  destruct (String.eqb k n) eqn:E.
  - apply String.eqb_eq in E. tauto.
  - apply IH. tauto.
Qed.

Lemma entries_named_single : forall d n e,
  NoDup (names_of d) -> dict_get d n = Some e -> entries_named n d = [(n, e)].
Proof.
  induction d as [|[k v] d IH]; intros n e ND H; simpl in *; [discriminate|].
  inversion ND as [|? ? Hk ND']; subst.
  destruct (String.eqb k n) eqn:E.
  - apply String.eqb_eq in E. subst k. injection H as ->.
    rewrite entries_named_absent by exact Hk. reflexivity.
  - apply IH; assumption.
Qed.

Lemma aggregates_two_lines : forall lines bl n l1 l2,
  aggregates lines bl ->
  lines_named n lines = [l1; l2] ->
  exists a1 a2,
    line_amount l1 = Some a1 /\ line_amount l2 = Some a2 /\
    entries_named n bl = [(n, mk_Entry (line_unit l1) (Some (a1 + a2)))].
Proof.
  intros lines bl n l1 l2 Hagg Hl.
  pose proof (aggregates_NoDup Hagg) as ND.
  destruct (dict_get bl n) as [e|] eqn:Hget.
  - destruct Hagg as [_ Hent].
    destruct (Hent _ _ Hget) as (l0 & rest & Hl' & Hu & Ha).
    rewrite Hl in Hl'. injection Hl' as <- <-.
    rewrite (@entries_named_single _ _ _ ND Hget).
    destruct e as [u [z|]]; simpl in *.
    + destruct Ha as (zs & Hzs & ->).
      destruct zs as [|a1 [|a2 [|a3 zs]]]; simpl in Hzs; try discriminate.
      injection Hzs as H1 H2. exists a1, a2. subst u.
      split; [exact H1|]. split; [exact H2|].
      unfold sum_Z; simpl. rewrite Z.add_0_r. reflexivity.
    + discriminate.
  - exfalso. apply dict_get_None in Hget. apply Hget.
    destruct Hagg as [-> _]. apply first_seen_In.
    apply (lines_named_head_seen _ _ Hl).
Qed.

(** C1.  When the aggregation of a cart returns a dictionary, its keys are
    pairwise distinct and are exactly the ingredient names met on the
    lines of the recipes in the cart, and the amount under each key is the
    sum of the amounts of all lines of that name, whichever recipe they
    come from.  In particular, when the lines named "Sugar" are two, of
    amounts 100 and 50 and of one unit, the dictionary has a single
    "Sugar" entry, of that unit and of amount 150. *)
Theorem aggregation_sums_by_name : forall user db bl db',
  build_buying_list user db = (Ok bl, db') ->
  exists lines,
    cart_lines db user = Some lines /\
    NoDup (names_of bl) /\
    (forall n, In n (names_of bl) <-> In n (map line_name lines)) /\
    (forall n e, In (n, e) bl ->
       amount_is_sum (entry_amount e) (map line_amount (lines_named n lines))) /\
    (forall u l1 l2,
       lines_named "Sugar" lines = [l1; l2] ->
       line_unit l1 = u -> line_unit l2 = u ->
       line_amount l1 = Some 100 -> line_amount l2 = Some 50 ->
       entries_named "Sugar" bl = [("Sugar", mk_Entry u (Some 150))]).
Proof.
  intros user db bl db' H.
  destruct (build_ok_lines _ _ H) as (_ & lines & Hlines & Hacc).
  pose proof (accumulate_all_aggregates _ Hacc) as Hagg.
  pose proof (aggregates_NoDup Hagg) as ND.
  exists lines. split; [exact Hlines|]. split; [exact ND|]. split; [|split].
  - intros n. destruct Hagg as [-> _]. apply first_seen_In.
  - intros n e HIn. apply (@In_dict_get _ _ _ ND) in HIn.
    destruct Hagg as [_ Hent].
    destruct (Hent _ _ HIn) as (l0 & rest & -> & _ & Ha). exact Ha.
  - intros u l1 l2 Hl Hu1 _ Ha1 Ha2.
    destruct (@aggregates_two_lines _ _ _ _ _ Hagg Hl) as (a1 & a2 & E1 & E2 & ->).
    rewrite Ha1 in E1. rewrite Ha2 in E2.
    injection E1 as <-. injection E2 as <-. rewrite Hu1. reflexivity.
Qed.

Lemma aggregation_sums_by_name_witness :
  exists lines,
    cart_lines sample_db 1 = Some lines /\
    NoDup (names_of [("Flour", mk_Entry "gram" (Some 200));
                     ("Sugar", mk_Entry "gram" (Some 150))]) /\
    (forall n,
       In n (names_of [("Flour", mk_Entry "gram" (Some 200));
                       ("Sugar", mk_Entry "gram" (Some 150))])
       <-> In n (map line_name lines)) /\
    (forall n e,
       In (n, e) [("Flour", mk_Entry "gram" (Some 200));
                  ("Sugar", mk_Entry "gram" (Some 150))] ->
       amount_is_sum (entry_amount e) (map line_amount (lines_named n lines))) /\
    (forall u l1 l2,
       lines_named "Sugar" lines = [l1; l2] ->
       line_unit l1 = u -> line_unit l2 = u ->
       line_amount l1 = Some 100 -> line_amount l2 = Some 50 ->
       entries_named "Sugar" [("Flour", mk_Entry "gram" (Some 200));
                              ("Sugar", mk_Entry "gram" (Some 150))]
       = [("Sugar", mk_Entry u (Some 150))]).
Proof.
  apply (@aggregation_sums_by_name 1 sample_db _ sample_db). reflexivity.
Defined.

(** C2.  When the aggregation returns a dictionary, every entry carries the
    unit of the first line of its name in traversal order.  In particular,
    when a name has two lines and their units differ, the dictionary has
    exactly one entry for that name; its unit is that of the first line,
    its amount is the plain sum of the two amounts, and the unit of the
    second line appears nowhere in it. *)
Theorem first_unit_wins : forall user db bl db',
  build_buying_list user db = (Ok bl, db') ->
  exists lines,
    cart_lines db user = Some lines /\
    (forall n e, In (n, e) bl ->
       exists l0 rest, lines_named n lines = l0 :: rest /\
                       entry_unit e = line_unit l0) /\
    (forall n l1 l2,
       lines_named n lines = [l1; l2] ->
       line_unit l1 <> line_unit l2 ->
       exists a1 a2,
         line_amount l1 = Some a1 /\ line_amount l2 = Some a2 /\
         entries_named n bl = [(n, mk_Entry (line_unit l1) (Some (a1 + a2)))] /\
         forall e, In (n, e) bl -> entry_unit e <> line_unit l2).
Proof.
  intros user db bl db' H.
  destruct (build_ok_lines _ _ H) as (_ & lines & Hlines & Hacc).
  pose proof (accumulate_all_aggregates _ Hacc) as Hagg.
  pose proof (aggregates_NoDup Hagg) as ND.
  exists lines. split; [exact Hlines|]. split.
  - intros n e HIn. apply (@In_dict_get _ _ _ ND) in HIn.
    destruct Hagg as [_ Hent].
    destruct (Hent _ _ HIn) as (l0 & rest & Hl & Hu & _). eauto.
  - intros n l1 l2 Hl Hne.
    destruct (@aggregates_two_lines _ _ _ _ _ Hagg Hl) as (a1 & a2 & E1 & E2 & E).
    exists a1, a2. repeat split; auto.
    intros e HIn. apply (@In_dict_get _ _ _ ND) in HIn.
    destruct Hagg as [_ Hent].
    destruct (Hent _ _ HIn) as (l0 & rest & Hl' & Hu & _).
    rewrite Hl in Hl'. injection Hl' as <- <-. congruence.
Qed.

Lemma first_unit_wins_witness :
  exists lines,
    cart_lines sample_db 2 = Some lines /\
    (forall n e,
       In (n, e) [("Flour", mk_Entry "gram" (Some 200));
                  ("Sugar", mk_Entry "gram" (Some 102))] ->
       exists l0 rest, lines_named n lines = l0 :: rest /\
                       entry_unit e = line_unit l0) /\
    (forall n l1 l2,
       lines_named n lines = [l1; l2] ->
       line_unit l1 <> line_unit l2 ->
       exists a1 a2,
         line_amount l1 = Some a1 /\ line_amount l2 = Some a2 /\
         entries_named n [("Flour", mk_Entry "gram" (Some 200));
                          ("Sugar", mk_Entry "gram" (Some 102))]
         = [(n, mk_Entry (line_unit l1) (Some (a1 + a2)))] /\
         forall e,
           In (n, e) [("Flour", mk_Entry "gram" (Some 200));
                      ("Sugar", mk_Entry "gram" (Some 102))] ->
           entry_unit e <> line_unit l2).
Proof.
  apply (@first_unit_wins 2 sample_db _ sample_db). reflexivity.
Defined.

(* ------------------------------------------------------------------ *)
(** ** Reading views *)

Create HintDb read_only.

Lemma read_only_ret : forall A (a : A), read_only (ret a).
Proof. intros A a db. reflexivity. Qed.

Lemma read_only_raise : forall A (e : exn), read_only (@raise A e).
Proof. intros A e db. reflexivity. Qed.

Lemma read_only_lift : forall A (r : result A), read_only (lift r).
Proof. intros A r db. reflexivity. Qed.

Lemma read_only_get_db : read_only get_db.
Proof. intros db. reflexivity. Qed.

Lemma read_only_bind : forall A B (m : M A) (k : A -> M B),
  read_only m -> (forall a, read_only (k a)) -> read_only (bind m k).
Proof.
  intros A B m k Hm Hk db. unfold bind.
  specialize (Hm db). destruct (m db) as [[a|e] db1]; simpl in Hm; subst db1.
  - apply Hk.
  - reflexivity.
Qed.

Lemma read_only_for_each : forall X S (body : X -> S -> M S) xs acc,
  (forall x s, read_only (body x s)) -> read_only (for_each xs body acc).
Proof.
  intros X S body xs. induction xs as [|x xs IH]; intros acc Hbody; simpl.
  - apply read_only_ret.
  - apply read_only_bind; auto.
Qed.

#[local] Hint Resolve read_only_ret read_only_raise read_only_lift
  read_only_get_db read_only_bind read_only_for_each : read_only.

Lemma read_only_inner_body : forall ingredient bl, read_only (inner_body ingredient bl).
Proof.
  intros. unfold inner_body, Ingredient_get. auto 10 with read_only.
Qed.

#[local] Hint Resolve read_only_inner_body : read_only.

Lemma read_only_outer_body : forall record bl, read_only (outer_body record bl).
Proof.
  intros. unfold outer_body, Recipe_get, RecipeIngredients_filter.
  auto 10 with read_only.
Qed.

#[local] Hint Resolve read_only_outer_body : read_only.

Lemma read_only_build_buying_list : forall user, read_only (build_buying_list user).
Proof.
  intros. unfold build_buying_list, user_shopping_cart_all.
  auto 10 with read_only.
Qed.

#[local] Hint Resolve read_only_build_buying_list : read_only.

Lemma read_only_download_shopping_cart : forall user now,
  read_only (download_shopping_cart user now).
Proof.
  intros. unfold download_shopping_cart. auto 10 with read_only.
Qed.

(** C6.  A call of [download_shopping_cart] returns the database it was
    given, whether it answers or raises: the cart entries, the recipes, the
    recipe-ingredient lines and the ingredients are the same after the call
    as before it. *)
Theorem download_shopping_cart_reads_only : forall user now db,
  let db' := snd (download_shopping_cart user now db) in
  shopping_cart db' = shopping_cart db /\
  recipes db' = recipes db /\
  recipe_ingredients db' = recipe_ingredients db /\
  ingredients db' = ingredients db /\
  db' = db.
Proof.
  intros user now db db'. subst db'.
  rewrite (read_only_download_shopping_cart user now db). repeat split.
Qed.

Lemma content_render : forall bl now,
  content (render bl now) =
  (fst (draw_items bl [setFont "DejaVuSerif" 15] 800) ++ [showPage] ++ [save])%list.
Proof.
  intros bl now. unfold render.
  destruct (draw_items bl [setFont "DejaVuSerif" 15] 800) as [p h]. simpl.
  rewrite <- app_assoc. reflexivity.
Qed.

(** C5.  Two calls in succession, the second on the database the first one
    left, give the same aggregation: the same dictionary or the same
    exception, hence the same page; with the same reading of the clock they
    give the same response. *)
Theorem aggregation_repeatable : forall user now1 now2 db,
  let first := download_shopping_cart user now1 db in
  let second := download_shopping_cart user now2 (snd first) in
  fst (build_buying_list user (snd (build_buying_list user db)))
    = fst (build_buying_list user db) /\
  page_of (fst second) = page_of (fst first) /\
  (now1 = now2 -> second = first).
Proof.
  intros user now1 now2 db first second. subst first second.
  rewrite (read_only_build_buying_list user db).
  rewrite (read_only_download_shopping_cart user now1 db).
  split; [reflexivity|]. split.
  - unfold download_shopping_cart, bind, ret.
    destruct (build_buying_list user db) as [[bl|e] db1]; simpl; [|reflexivity].
    rewrite !content_render. reflexivity.
  - intros ->. reflexivity.
Qed.

(* ------------------------------------------------------------------ *)
(** ** The page *)

Lemma drawn_app : forall p q, drawn (p ++ q) = (drawn p ++ drawn q)%list.
Proof.
  induction p as [|op p IH]; intros q; simpl; [reflexivity|].
  destruct op; simpl; rewrite IH; reflexivity.
Qed.

Lemma draw_items_canvas : forall items p height,
  fst (draw_items items p height) = (p ++ fst (draw_items items [] height))%list.
Proof.
  induction items as [|[n e] items IH]; intros p height; simpl.
  - symmetry. apply app_nil_r.
  - rewrite IH. rewrite (IH [_]). rewrite app_assoc. reflexivity.
Qed.

Lemma drawn_draw_items_cons : forall n e items height,
  drawn (fst (draw_items ((n, e) :: items) [] height)) =
  (50, height, format_line n e) :: drawn (fst (draw_items items [] (height - 25))).
Proof.
  intros. simpl. rewrite draw_items_canvas, drawn_app. reflexivity.
Qed.

Lemma drawn_draw_items_length : forall items height,
  length (drawn (fst (draw_items items [] height))) = length items.
Proof.
  induction items as [|[n e] items IH]; intros height; [reflexivity|].
  rewrite drawn_draw_items_cons. simpl. rewrite IH. reflexivity.
Qed.

Lemma drawn_draw_items_nth : forall items height i n e,
  nth_error items i = Some (n, e) ->
  nth_error (drawn (fst (draw_items items [] height))) i =
  Some (50, height - 25 * Z.of_nat i, format_line n e).
Proof.
  induction items as [|[n0 e0] items IH]; intros height i n e H.
  - destruct i; discriminate.
  - rewrite drawn_draw_items_cons. destruct i as [|i].
    + simpl in H. injection H as <- <-. simpl. rewrite Z.sub_0_r. reflexivity.
    + simpl in H. cbn [nth_error]. rewrite (IH _ _ _ _ H).
      rewrite Nat2Z.inj_succ.
      replace (height - 25 * Z.succ (Z.of_nat i))
        with (height - 25 - 25 * Z.of_nat i) by lia.
      reflexivity.
Qed.

Lemma drawn_draw_items_texts : forall items height,
  map snd (drawn (fst (draw_items items [] height))) =
  map (fun kv => format_line (fst kv) (snd kv)) items.
Proof.
  induction items as [|[n e] items IH]; intros height; [reflexivity|].
  rewrite drawn_draw_items_cons. simpl. rewrite IH. reflexivity.
Qed.

Lemma drawn_render : forall bl now,
  drawn (content (render bl now)) = drawn (fst (draw_items bl [] 800)).
Proof.
  intros. rewrite content_render, draw_items_canvas, !drawn_app. simpl.
  apply app_nil_r.
Qed.

Lemma drawn_render_at : forall bl now i x y text,
  nth_error (drawn (content (render bl now))) i = Some (x, y, text) ->
  x = 50 /\ y = 800 - 25 * Z.of_nat i.
Proof.
  intros bl now i x y text H. rewrite drawn_render in H.
  destruct (nth_error bl i) as [[n e]|] eqn:E.
  - rewrite (drawn_draw_items_nth _ _ _ E) in H. injection H as <- <- _.
    split; reflexivity.
  - apply nth_error_None in E. rewrite <- (drawn_draw_items_length bl 800) in E.
    apply nth_error_None in E. congruence.
Qed.

Ltac digit_const :=
  match goal with
  | |- context [Z.of_nat (digit_value ?c)] =>
      let v := eval vm_compute in (Z.of_nat (digit_value c)) in
      change (Z.of_nat (digit_value c)) with v
  end.

Lemma uint_chars_digits : forall d,
  forallb is_digit (list_ascii_of_string (NilEmpty.string_of_uint d)) = true.
Proof. induction d; simpl; auto. Qed.

Lemma uint_value_acc : forall d acc,
  fold_left (fun a c => 10 * a + Z.of_nat (digit_value c))
            (list_ascii_of_string (NilEmpty.string_of_uint d)) (Z.pos acc)
  = Z.pos (Pos.of_uint_acc d acc).
Proof.
  induction d; intros acc;
    cbn [NilEmpty.string_of_uint list_ascii_of_string fold_left Pos.of_uint_acc];
    try reflexivity;
    match goal with
    | |- fold_left _ _ ?x = Z.pos (Pos.of_uint_acc _ ?y) =>
        replace x with (Z.pos y) by (digit_const; lia)
    end; apply IHd.
Qed.

Lemma uint_value : forall d,
  digits_value (NilEmpty.string_of_uint d) = Z.of_N (Pos.of_uint d).
Proof.
  unfold digits_value.
  induction d;
    cbn [NilEmpty.string_of_uint list_ascii_of_string fold_left Pos.of_uint];
    try reflexivity;
    try (match goal with
         | |- fold_left _ _ ?x = Z.of_N (N.pos (Pos.of_uint_acc _ ?y)) =>
             replace x with (Z.pos y) by (digit_const; lia)
         end; apply uint_value_acc).
  replace (10 * 0 + Z.of_nat (digit_value "0")) with 0 by (digit_const; lia).
  exact IHd.
Qed.

Lemma nzhead_no_leading_zero : forall d,
  match Decimal.nzhead d with Decimal.D0 _ => False | _ => True end.
Proof. induction d; simpl; auto. Qed.

Lemma to_uint_head : forall p,
  match Pos.to_uint p with Decimal.Nil | Decimal.D0 _ => False | _ => True end.
Proof.
  intros p.
  pose proof (DecimalPos.Unsigned.to_of (Pos.to_uint p)) as H.
  rewrite DecimalPos.Unsigned.of_to in H. simpl N.to_uint in H.
  pose proof (DecimalPos.Unsigned.to_uint_nonzero p) as Hz.
  pose proof (nzhead_no_leading_zero (Pos.to_uint p)) as Hn.
  unfold Decimal.unorm in H.
  destruct (Decimal.nzhead (Pos.to_uint p)); rewrite H; auto.
Qed.

Lemma positive_text : forall p,
  canonical_digits (NilEmpty.string_of_uint (Pos.to_uint p)) = true /\
  String.eqb (NilEmpty.string_of_uint (Pos.to_uint p)) "0" = false /\
  digits_value (NilEmpty.string_of_uint (Pos.to_uint p)) = Z.pos p /\
  NilZero.string_of_uint (Pos.to_uint p) = NilEmpty.string_of_uint (Pos.to_uint p) /\
  exists c rest, NilEmpty.string_of_uint (Pos.to_uint p) = String c rest
                 /\ Ascii.eqb c "-" = false.
Proof.
  intros p. pose proof (to_uint_head p) as Hh.
  pose proof (uint_chars_digits (Pos.to_uint p)) as Hd.
  pose proof (uint_value (Pos.to_uint p)) as Hv.
  rewrite DecimalPos.Unsigned.of_to in Hv. simpl Z.of_N in Hv.
  destruct (Pos.to_uint p) as [|d|d|d|d|d|d|d|d|d|d]; try contradiction;
    cbn [NilEmpty.string_of_uint] in *;
    (split; [unfold canonical_digits; rewrite Hd; reflexivity|];
     split; [reflexivity|]; split; [exact Hv|]; split; [reflexivity|];
     eexists; eexists; split; [reflexivity|reflexivity]).
Qed.

(** [str] of an integer is its decimal notation. *)
Lemma decimal_value_py_str : forall z, decimal_value (py_str (Some z)) = Some z.
Proof.
  intros [|p|p]; unfold py_str, Z.to_int, NilZero.string_of_int.
  - reflexivity.
  - destruct (positive_text p) as (Hc & _ & Hv & -> & c & rest & E & Hm).
    unfold decimal_value. rewrite E in *. rewrite Hm, Hc, Hv. reflexivity.
  - destruct (positive_text p) as (Hc & Hz & Hv & -> & _).
    unfold decimal_value. rewrite Ascii.eqb_refl, Hc, Hz, Hv. reflexivity.
Qed.

Lemma amount_text_py_str : forall amount, amount_text amount (py_str amount).
Proof.
  intros [z|]; simpl; [apply decimal_value_py_str|reflexivity].
Qed.

(** C7.  The page holds one drawn string per entry of the dictionary.  The
    string of the entry at position [i] is the name, a space, the unit in
    parentheses, " - " and the amount, the amount being written in decimal
    notation (the word None when it is null); it is drawn at [x = 50] and
    [y = 800 - 25 * i]: each line is 25 below the line before it. *)
Theorem render_one_line_per_entry : forall bl now,
  length (drawn (content (render bl now))) = length bl /\
  (forall i n e,
     nth_error bl i = Some (n, e) ->
     exists a,
       nth_error (drawn (content (render bl now))) i =
       Some (50, 800 - 25 * Z.of_nat i, n ++ " (" ++ entry_unit e ++ ") - " ++ a) /\
       amount_text (entry_amount e) a) /\
  (forall i x1 y1 t1 x2 y2 t2,
     nth_error (drawn (content (render bl now))) i = Some (x1, y1, t1) ->
     nth_error (drawn (content (render bl now))) (S i) = Some (x2, y2, t2) ->
     x2 = x1 /\ y2 = y1 - 25).
Proof.
  intros bl now. split; [|split].
  - rewrite drawn_render. apply drawn_draw_items_length.
  - intros i n e H. exists (py_str (entry_amount e)). split.
    + rewrite drawn_render. apply (drawn_draw_items_nth _ _ _ H).
    + apply amount_text_py_str.
  - intros i x1 y1 t1 x2 y2 t2 H1 H2.
    apply drawn_render_at in H1. apply drawn_render_at in H2.
    destruct H1 as [-> ->]. destruct H2 as [-> ->].
    split; [reflexivity|]. rewrite Nat2Z.inj_succ. lia.
Qed.

(** The second entry of user 1's list: "Sugar", 150 grams, on the second
    line of the page. *)
Lemma render_one_line_per_entry_witness :
  exists a,
    nth_error
      (drawn (content (render
         [("Flour", mk_Entry "gram" (Some 200)); ("Sugar", mk_Entry "gram" (Some 150))]
         sample_now))) 1
    = Some (50, 775, "Sugar (gram) - " ++ a) /\
    decimal_value a = Some 150 /\
    a = "150".
Proof.
  destruct (@render_one_line_per_entry
              [("Flour", mk_Entry "gram" (Some 200)); ("Sugar", mk_Entry "gram" (Some 150))]
              sample_now) as (_ & H & _).
  destruct (H 1%nat "Sugar" (mk_Entry "gram" (Some 150)) eq_refl) as (a & Ha & Hv).
  exists a. split; [exact Ha|]. split; [exact Hv|].
  vm_compute in Ha. injection Ha as Ha. symmetry. exact Ha.
Defined.

(** C4.  For a user without cart entries the aggregation returns the empty
    dictionary, and the view answers (it does not raise) with a page on
    which no string is drawn. *)
Theorem empty_cart_empty_page : forall user now db,
  (forall r, In r (shopping_cart db) -> sc_user r <> user) ->
  build_buying_list user db = (Ok [], db) /\
  exists resp,
    download_shopping_cart user now db = (Ok resp, db) /\
    content resp = [setFont "DejaVuSerif" 15; showPage; save] /\
    drawn (content resp) = [].
Proof.
  intros user now db Hempty.
  assert (Hcart : filter (fun r => sc_user r =? user) (shopping_cart db) = []).
  { induction (shopping_cart db) as [|r rows IH]; [reflexivity|]. simpl.
    destruct (sc_user r =? user) eqn:E.
    - apply Z.eqb_eq in E. exfalso. apply (Hempty r); [left; reflexivity|exact E].
    - apply IH. intros r' Hr'. apply Hempty. right. exact Hr'. }
  assert (Hbuild : build_buying_list user db = (Ok [], db)).
  { rewrite build_buying_list_run. unfold traversal. rewrite Hcart. reflexivity. }
  split; [exact Hbuild|].
  exists (render [] now). unfold download_shopping_cart, bind.
  rewrite Hbuild. repeat split.
Qed.

Lemma empty_cart_empty_page_witness :
  build_buying_list 3 sample_db = (Ok [], sample_db) /\
  exists resp,
    download_shopping_cart 3 sample_now sample_db = (Ok resp, sample_db) /\
    content resp = [setFont "DejaVuSerif" 15; showPage; save] /\
    drawn (content resp) = [].
Proof.
  apply (@empty_cart_empty_page 3 sample_now sample_db).
  intros r Hr. simpl in Hr.
  repeat (destruct Hr as [<-|Hr]; [simpl; lia|]). contradiction.
Defined.





(* ------------------------------------------------------------------ *)
(** ** Totality *)

Lemma lines_named_seen : forall n lines,
  In n (map line_name lines) -> (1 <= length (lines_named n lines))%nat.
Proof.
  induction lines as [|l lines IH]; simpl; intros H; [contradiction|].
  destruct (String.eqb (line_name l) n) eqn:E; simpl; [lia|].
  apply String.eqb_neq in E. destruct H as [H|H]; [contradiction|auto].
Qed.

Lemma null_added_seen : forall pre l post,
  In (line_name l) (map line_name pre) ->
  line_amount l = None ->
  null_added (line_name l) (pre ++ l :: post).
Proof.
  intros pre l post Hseen Hnull. unfold null_added.
  rewrite lines_named_app. simpl. rewrite String.eqb_refl.
  pose proof (lines_named_seen _ _ Hseen) as Hlen. split.
  - rewrite length_app. simpl. lia.
  - rewrite map_app. apply in_or_app. right. simpl. left. exact Hnull.
Qed.

Lemma null_added_first : forall pre l mid l' post,
  line_amount l = None ->
  line_name l' = line_name l ->
  null_added (line_name l) (pre ++ l :: mid ++ l' :: post).
Proof.
  intros pre l mid l' post Hnull Hname. unfold null_added.
  rewrite lines_named_app. simpl. rewrite String.eqb_refl.
  rewrite lines_named_app. simpl. rewrite Hname, String.eqb_refl. split.
  - rewrite length_app. simpl. rewrite length_app. simpl. lia.
  - rewrite map_app. apply in_or_app. right. simpl. left. exact Hnull.
Qed.

(** C10.  Let the foreign keys on the way from the cart resolve, and let
    [lines] be the lines reached.  If every line has an amount, the
    aggregation returns a dictionary and every total in it is an integer.
    If a line whose name was met before has no amount, or a line without
    amount is followed by a line of its name, the aggregation raises
    [TypeError].  It raises exactly when some name has two lines or more of
    which one has no amount; a line without amount that is the only line of
    its name raises nothing. *)
Theorem null_amounts : forall user db lines,
  cart_lines db user = Some lines ->
  ((forall l, In l lines -> line_amount l <> None) ->
   exists bl, build_buying_list user db = (Ok bl, db) /\
     forall n e, In (n, e) bl -> exists z, entry_amount e = Some z) /\
  (forall pre l post,
     lines = (pre ++ l :: post)%list ->
     In (line_name l) (map line_name pre) ->
     line_amount l = None ->
     build_buying_list user db = (Raise TypeError, db)) /\
  (forall pre l mid l' post,
     lines = (pre ++ l :: mid ++ l' :: post)%list ->
     line_amount l = None ->
     line_name l' = line_name l ->
     build_buying_list user db = (Raise TypeError, db)) /\
  (build_buying_list user db = (Raise TypeError, db)
   <-> exists n, null_added n lines).
Proof.
  intros user db lines Hlines.
  rewrite (build_of_lines _ _ Hlines).
  assert (Hiff : (accumulate_all lines [], db) = (Raise TypeError, db)
                 <-> exists n, null_added n lines).
  { rewrite <- accumulate_all_TypeError_iff. split.
    - intros H; injection H as H; exact H.
    - intros ->; reflexivity. }
  split; [|split; [|split]].
  - intros Hall. destruct (accumulate_all_non_null _ Hall) as (bl & -> & Hbl).
    exists bl. split; [reflexivity|exact Hbl].
  - intros pre l post -> Hseen Hnull. apply Hiff.
    exists (line_name l). apply null_added_seen; assumption.
  - intros pre l mid l' post -> Hnull Hname. apply Hiff.
    exists (line_name l). apply null_added_first; assumption.
  - exact Hiff.
Qed.

Lemma null_amounts_witness :
  (exists bl, build_buying_list 1 sample_db = (Ok bl, sample_db) /\
     forall n e, In (n, e) bl -> exists z, entry_amount e = Some z) /\
  build_buying_list 5 sample_db = (Raise TypeError, sample_db).
Proof.
  split.
  - destruct (@null_amounts 1 sample_db _ eq_refl) as [H _]. apply H.
    intros l Hl. simpl in Hl.
    repeat (destruct Hl as [<-|Hl]; [discriminate|]). contradiction.
  - destruct (@null_amounts 5 sample_db _ eq_refl) as (_ & _ & H & _).
    apply (H [] (mk_Line "Salt" "gram" None) [] (mk_Line "Salt" "gram" (Some 5)) []);
      reflexivity.
Defined.

(* ------------------------------------------------------------------ *)
(** ** The headers of the response *)

Lemma pad2_field : forall n, (n < 100)%nat -> field_ok 2 n (pad2 n) = true.
Proof.
  assert (H : forallb (fun n => field_ok 2 n (pad2 n)) (seq 0 100) = true)
    by (vm_compute; reflexivity).
  intros n Hn. rewrite forallb_forall in H. apply H. apply in_seq. lia.
Qed.

Lemma year_field : forall y,
  (1000 <= y < 10 * 1000)%nat -> field_ok 4 y (year_str y) = true.
Proof.
  assert (H : forallb (fun y => field_ok 4 y (year_str y)) (seq 1000 (9 * 1000))
              = true)
    by (vm_compute; reflexivity).
  intros y Hy. rewrite forallb_forall in H. apply H. apply in_seq. lia.
Qed.

(** C8.  When the view answers, the response declares the media type
    "application/pdf", and its Content-Disposition header is
    [attachment; filename="buying_list_<timestamp>.pdf"] where the
    timestamp is [strftime] of the clock reading of the call: month, day
    and year separated by "/", then ", ", then hour, minute and second
    separated by ":", the year written with four digits and every other
    field with two. *)
Theorem response_is_a_named_pdf : forall user now db resp db',
  download_shopping_cart user now db = (Ok resp, db') ->
  valid_now now ->
  content_type resp = "application/pdf" /\
  headers resp =
    [("Content-Disposition",
      "attachment; filename=" ++ dquote ++ "buying_list_" ++ strftime now
      ++ ".pdf" ++ dquote)] /\
  exists MM DD YYYY hh mm ss,
    strftime now = MM ++ "/" ++ DD ++ "/" ++ YYYY ++ ", " ++ hh ++ ":" ++ mm ++ ":" ++ ss /\
    field_ok 2 (month now) MM = true /\
    field_ok 2 (day now) DD = true /\
    field_ok 4 (year now) YYYY = true /\
    field_ok 2 (hour now) hh = true /\
    field_ok 2 (minute now) mm = true /\
    field_ok 2 (second now) ss = true.
Proof.
  intros user now db resp db' H (Hy & Hm & Hd & Hh & Hi & Hs).
  unfold download_shopping_cart, bind, ret in H.
  destruct (build_buying_list user db) as [[bl|e] db1]; [|discriminate].
  injection H as <- _.
  split; [|split].
  - unfold render. destruct (draw_items _ _ _). reflexivity.
  - unfold render. destruct (draw_items _ _ _). reflexivity.
  - exists (pad2 (month now)), (pad2 (day now)), (year_str (year now)),
      (pad2 (hour now)), (pad2 (minute now)), (pad2 (second now)).
    split; [reflexivity|].
    repeat split; try (apply pad2_field; lia). apply year_field. lia.
Qed.

Lemma response_is_a_named_pdf_witness :
  content_type
    (render [("Flour", mk_Entry "gram" (Some 200)); ("Sugar", mk_Entry "gram" (Some 150))]
            sample_now)
    = "application/pdf" /\
  headers
    (render [("Flour", mk_Entry "gram" (Some 200)); ("Sugar", mk_Entry "gram" (Some 150))]
            sample_now)
    = [("Content-Disposition",
        "attachment; filename=" ++ dquote ++ "buying_list_" ++ strftime sample_now
        ++ ".pdf" ++ dquote)] /\
  exists MM DD YYYY hh mm ss,
    strftime sample_now = MM ++ "/" ++ DD ++ "/" ++ YYYY ++ ", " ++ hh ++ ":" ++ mm ++ ":" ++ ss /\
    field_ok 2 (month sample_now) MM = true /\
    field_ok 2 (day sample_now) DD = true /\
    field_ok 4 (year sample_now) YYYY = true /\
    field_ok 2 (hour sample_now) hh = true /\
    field_ok 2 (minute sample_now) mm = true /\
    field_ok 2 (second sample_now) ss = true.
Proof.
  apply (@response_is_a_named_pdf 1 sample_now sample_db _ sample_db).
  - reflexivity.
  - unfold valid_now, sample_now. simpl. lia.
Defined.

(* ------------------------------------------------------------------ *)
(** ** The cart table *)

Lemma NoDup_map_filter : forall A B (f : A -> B) (p : A -> bool) l,
  NoDup (map f l) -> NoDup (map f (filter p l)).
Proof.
  intros A B f p l. induction l as [|a l IH]; simpl; intros H; [constructor|].
  inversion H as [|? ? Hn Hd]; subst.
  destruct (p a); simpl; auto.
  constructor; auto.
  intros Hin. apply Hn. apply in_map_iff in Hin.
  destruct Hin as (x & Hx & Hf). apply filter_In in Hf.
  apply in_map_iff. exists x. tauto.
Qed.

Lemma cart_filter_nil : forall user recipe rows,
  filter (fun r => (sc_user r =? user) && (sc_recipe r =? recipe)) rows = [] ->
  ~ In (user, recipe) (map (fun r => (sc_user r, sc_recipe r)) rows).
Proof.
  intros user recipe rows H Hin. apply in_map_iff in Hin.
  destruct Hin as (r & Hr & HIn). injection Hr as Hu Hc.
  assert (Hf : In r (filter (fun r => (sc_user r =? user) && (sc_recipe r =? recipe))
                            rows)).
  { apply filter_In. split; [exact HIn|]. rewrite Hu, Hc, !Z.eqb_refl. reflexivity. }
  rewrite H in Hf. contradiction.
Qed.

Lemma cart_unique_append : forall rows row,
  NoDup (map (fun r => (sc_user r, sc_recipe r)) rows) ->
  ~ In (sc_user row, sc_recipe row) (map (fun r => (sc_user r, sc_recipe r)) rows) ->
  NoDup (map (fun r => (sc_user r, sc_recipe r)) (rows ++ [row])).
Proof.
  intros rows row; induction rows as [|a rows IH]; simpl; intros ND Hn.
  - constructor; [tauto|constructor].
  - inversion ND as [|? ? Ha ND']; subst. constructor.
    + rewrite map_app, in_app_iff. simpl. intros [H|[H|[]]]; [tauto|].
      apply Hn. left. symmetry. exact H.
    + apply IH; tauto.
Qed.

(** What the add-to-cart view does, case by case. *)
Lemma ShoppingCartViewSet_get_cases : forall is_valid user recipe_id now db,
  let rows := filter (fun r => (sc_user r =? user) && (sc_recipe r =? recipe_id))
                     (shopping_cart db) in
  ShoppingCartViewSet_get is_valid user recipe_id now db =
  match rows with
  | _ :: _ => (Ok (mk_Response 400 (Message "Уже в корзине")), db)
  | [] =>
      if is_valid db user recipe_id then
        if insert_allowed db user recipe_id then
          let row := mk_ShoppingCart (shopping_cart_seq db) user recipe_id now in
          (Ok (mk_Response 201 (SerializerData row)),
           mk_DB (ingredients db) (recipes db) (recipe_ingredients db)
                 (shopping_cart db ++ [row]) (shopping_cart_seq db + 1))
        else (Raise IntegrityError, db)
      else (Ok (mk_Response 400 SerializerErrors), db)
  end.
Proof.
  intros is_valid user recipe_id now db rows. subst rows.
  unfold ShoppingCartViewSet_get, ShoppingCart_filter, serializer_save,
    ShoppingCart_create, bind, get_db, put_db, ret, raise. simpl.
  destruct (filter _ (shopping_cart db)) as [|r rows]; simpl; [|reflexivity].
  destruct (is_valid db user recipe_id); simpl; [|reflexivity].
  destruct (insert_allowed db user recipe_id); reflexivity.
Qed.

(** What the remove-from-cart view does, case by case. *)
Lemma ShoppingCartViewSet_delete_cases : forall user recipe_id db,
  ShoppingCartViewSet_delete user recipe_id db =
  match find_recipe db recipe_id with
  | Raise DoesNotExist => (Raise Http404, db)
  | Raise e => (Raise e, db)
  | Ok recipe =>
      match filter (fun r => (sc_user r =? user) && (sc_recipe r =? recipe_pk recipe))
                   (shopping_cart db) with
      | [] => (Ok (mk_Response 400 NoBody), db)
      | [row] =>
          (Ok (mk_Response 204 NoBody),
           mk_DB (ingredients db) (recipes db) (recipe_ingredients db)
                 (filter (fun r => negb (sc_id r =? sc_id row)) (shopping_cart db))
                 (shopping_cart_seq db))
      | _ :: _ :: _ => (Raise MultipleObjectsReturned, db)
      end
  end.
Proof.
  intros user recipe_id db.
  unfold ShoppingCartViewSet_delete, get_Recipe_or_404, find_recipe,
    ShoppingCart_filter, ShoppingCart_delete, bind, get_db, put_db, ret, raise, lift.
  simpl.
  destruct (get_one (filter _ (recipes db))) as [recipe|[]]; simpl; try reflexivity.
  destruct (filter _ (shopping_cart db)) as [|row [|row' rows]] eqn:E;
    simpl; rewrite ?E; reflexivity.
Qed.

Lemma find_recipe_pk : forall db pk recipe,
  find_recipe db pk = Ok recipe -> recipe_pk recipe = pk.
Proof.
  intros db pk recipe. unfold find_recipe, get_one.
  destruct (filter _ (recipes db)) as [|r [|r' rs]] eqn:E; try discriminate.
  intros H; injection H as <-.
  assert (Hin : In r (filter (fun r => recipe_pk r =? pk) (recipes db)))
    by (rewrite E; left; reflexivity).
  apply filter_In in Hin. apply Z.eqb_eq. tauto.
Qed.

Lemma cart_unique_sample_db : cart_unique sample_db.
Proof.
  unfold cart_unique. simpl.
  repeat (constructor; [simpl; intuition discriminate|]). constructor.
Qed.

(** C9.  A cart table in which no (user, recipe) pair occurs twice stays so
    under the add view, the remove view, the deletion of a recipe and the
    download.  The add view answers 400 to a pair that is already in the
    cart and leaves the database as it was.  The remove view, when it
    answers 204, has deleted a row that was in the cart under that user and
    recipe, and no table but the cart has changed; on every other outcome
    the database is as it was. *)
Theorem cart_unique_preserved : forall is_valid user recipe_id now db,
  cart_unique db ->
  cart_unique (snd (ShoppingCartViewSet_get is_valid user recipe_id now db)) /\
  cart_unique (snd (ShoppingCartViewSet_delete user recipe_id db)) /\
  cart_unique (snd (Recipe_delete recipe_id db)) /\
  cart_unique (snd (download_shopping_cart user now db)) /\
  ((exists r, In r (shopping_cart db) /\ sc_user r = user /\ sc_recipe r = recipe_id) ->
   ShoppingCartViewSet_get is_valid user recipe_id now db
   = (Ok (mk_Response 400 (Message "Уже в корзине")), db)) /\
  (forall resp db',
     ShoppingCartViewSet_delete user recipe_id db = (Ok resp, db') ->
     (resp = mk_Response 204 NoBody /\
      exists row,
        In row (shopping_cart db) /\ sc_user row = user /\ sc_recipe row = recipe_id /\
        db' = mk_DB (ingredients db) (recipes db) (recipe_ingredients db)
                (filter (fun r => negb (sc_id r =? sc_id row)) (shopping_cart db))
                (shopping_cart_seq db))
     \/ (resp = mk_Response 400 NoBody /\ db' = db)) /\
  (forall e db',
     ShoppingCartViewSet_delete user recipe_id db = (Raise e, db') -> db' = db).
Proof.
  intros is_valid user recipe_id now db Huniq.
  split; [|split; [|split; [|split; [|split; [|split]]]]].
  - (* add *)
    rewrite ShoppingCartViewSet_get_cases; cbv zeta.
    destruct (filter _ (shopping_cart db)) as [|r rows] eqn:E; [|exact Huniq].
    destruct (is_valid db user recipe_id); [|exact Huniq].
    destruct (insert_allowed db user recipe_id); [|exact Huniq].
    unfold cart_unique. simpl. apply cart_unique_append; [exact Huniq|].
    simpl. apply cart_filter_nil. exact E.
  - (* remove *)
    rewrite ShoppingCartViewSet_delete_cases.
    destruct (find_recipe db recipe_id) as [recipe|[]]; try exact Huniq.
    destruct (filter _ (shopping_cart db)) as [|row [|row' rows]]; try exact Huniq.
    unfold cart_unique. simpl. apply NoDup_map_filter. exact Huniq.
  - (* cascade *)
    unfold cart_unique. simpl. apply NoDup_map_filter. exact Huniq.
  - (* download *)
    rewrite (read_only_download_shopping_cart user now db). exact Huniq.
  - (* duplicate *)
    intros (r & Hr & Hu & Hc). rewrite ShoppingCartViewSet_get_cases; cbv zeta.
    destruct (filter _ (shopping_cart db)) as [|r' rows] eqn:E; [|reflexivity].
    exfalso.
    assert (Hf : In r (filter (fun r => (sc_user r =? user) && (sc_recipe r =? recipe_id))
                              (shopping_cart db))).
    { apply filter_In. split; [exact Hr|]. rewrite Hu, Hc, !Z.eqb_refl. reflexivity. }
    rewrite E in Hf. contradiction.
  - (* what remove deletes *)
    intros resp db' H. rewrite ShoppingCartViewSet_delete_cases in H.
    destruct (find_recipe db recipe_id) as [recipe|[]] eqn:Hrec; try discriminate.
    apply find_recipe_pk in Hrec.
    destruct (filter _ (shopping_cart db)) as [|row [|row' rows]] eqn:E;
      try discriminate; injection H as <- <-.
    + right. split; reflexivity.
    + left. split; [reflexivity|]. exists row.
      assert (Hin : In row (filter (fun r => (sc_user r =? user)
                                             && (sc_recipe r =? recipe_pk recipe))
                                   (shopping_cart db)))
        by (rewrite E; left; reflexivity).
      apply filter_In in Hin. destruct Hin as [Hin Hb].
      apply andb_prop in Hb. destruct Hb as [Hu Hc].
      apply Z.eqb_eq in Hu. apply Z.eqb_eq in Hc.
      repeat split; auto. congruence.
  - (* remove raises *)
    intros e db' H. rewrite ShoppingCartViewSet_delete_cases in H.
    destruct (find_recipe db recipe_id) as [recipe|[]];
      try (injection H as _ <-; reflexivity).
    destruct (filter _ (shopping_cart db)) as [|row [|row' rows]];
      try discriminate; injection H as _ <-; reflexivity.
Qed.

Lemma cart_unique_preserved_witness :
  ShoppingCartViewSet_get (fun _ _ _ => true) 1 10 sample_now sample_db
    = (Ok (mk_Response 400 (Message "Уже в корзине")), sample_db) /\
  cart_unique (snd (ShoppingCartViewSet_get (fun _ _ _ => true) 1 12 sample_now sample_db)) /\
  cart_unique (snd (ShoppingCartViewSet_delete 1 10 sample_db)).
Proof.
  split; [|split].
  - destruct (@cart_unique_preserved (fun _ _ _ => true) 1 10 sample_now sample_db
                cart_unique_sample_db) as (_ & _ & _ & _ & H & _).
    apply H. exists (mk_ShoppingCart 1 1 10 sample_now). simpl. auto.
  - apply (@cart_unique_preserved (fun _ _ _ => true) 1 12 sample_now sample_db
             cart_unique_sample_db).
  - apply (@cart_unique_preserved (fun _ _ _ => true) 1 10 sample_now sample_db
             cart_unique_sample_db).
Defined.

Example add_then_cart :
  map sc_recipe
    (shopping_cart (snd (ShoppingCartViewSet_get (fun _ _ _ => true) 1 12
                           sample_now sample_db)))
  = [10; 11; 10; 12; 13; 13; 14; 12].
Proof. reflexivity. Qed.

Example remove_then_cart :
  ShoppingCartViewSet_delete 1 10 sample_db =
  (Ok (mk_Response 204 NoBody),
   mk_DB (ingredients sample_db) (recipes sample_db) (recipe_ingredients sample_db)
         (tl (shopping_cart sample_db)) 8).
Proof. reflexivity. Qed.

Example remove_absent :
  ShoppingCartViewSet_delete 3 10 sample_db = (Ok (mk_Response 400 NoBody), sample_db).
Proof. reflexivity. Qed.

Example later_call_other_name :
  fst (download_shopping_cart 1 (mk_datetime 2021 8 5 9 7 4) sample_db)
  <> fst (download_shopping_cart 1 sample_now sample_db).
Proof. discriminate. Qed.

(* ================================================================== *)
(** * Further properties of the aggregation *)

(* ------------------------------------------------------------------ *)
(** ** Lines of pairwise distinct names *)

Lemma accumulate_all_distinct : forall lines bl,
  NoDup (map line_name lines) ->
  (forall l, In l lines -> ~ In (line_name l) (names_of bl)) ->
  accumulate_all lines bl = Ok (bl ++ map entry_of_line lines)%list.
Proof.
  induction lines as [|l lines IH]; intros bl ND Hfresh; simpl.
  - rewrite app_nil_r. reflexivity.
  - inversion ND as [|? ? Hl ND']; subst.
    assert (Hget : dict_get bl (line_name l) = None).
    { apply dict_get_None. apply Hfresh. left. reflexivity. }
    unfold accumulate. rewrite Hget, (dict_set_new _ _ _ Hget).
    rewrite IH.
    + rewrite <- app_assoc. reflexivity.
    + exact ND'.
    + intros l' Hl'. unfold names_of. rewrite map_app, in_app_iff. simpl.
      intros [H|[H|[]]].
      * apply (Hfresh l'); [right; exact Hl'|exact H].
      * apply Hl. rewrite H. apply in_map. exact Hl'.
Qed.

(** X1.  When no two lines reached from the cart share a name, the
    aggregation cannot raise, whether amounts are null or not: the
    dictionary has one entry per line, in line order, each with the unit
    and the amount of its line. *)
Theorem distinct_names_one_entry_each : forall user db lines,
  cart_lines db user = Some lines ->
  NoDup (map line_name lines) ->
  build_buying_list user db = (Ok (map entry_of_line lines), db) /\
  length (map entry_of_line lines) = length lines.
Proof.
  intros user db lines Hlines ND. split; [|apply length_map].
  rewrite (build_of_lines _ _ Hlines).
  rewrite (accumulate_all_distinct lines [] ND); [reflexivity|].
  intros l _ [].
Qed.

Lemma distinct_names_one_entry_each_witness :
  build_buying_list 4 sample_db
    = (Ok (map entry_of_line [mk_Line "Salt" "gram" None]), sample_db) /\
  length (map entry_of_line [mk_Line "Salt" "gram" None]) = 1%nat.
Proof.
  apply (@distinct_names_one_entry_each 4 sample_db [mk_Line "Salt" "gram" None]).
  - reflexivity.
  - simpl. constructor; [intros []|constructor].
Defined.

(* ------------------------------------------------------------------ *)
(** ** The order of the rows does not change the totals *)

Lemma Permutation_lines_named : forall n l1 l2,
  Permutation l1 l2 -> Permutation (lines_named n l1) (lines_named n l2).
Proof.
  intros n l1 l2 H. unfold lines_named.
  induction H as [|x l l' H IH|x y l|l l' l'' H1 IH1 H2 IH2]; simpl.
  - constructor.
  - destruct (String.eqb (line_name x) n); [constructor|]; exact IH.
  - destruct (String.eqb (line_name x) n), (String.eqb (line_name y) n);
      try apply Permutation_refl. apply perm_swap.
  - eapply Permutation_trans; eauto.
Qed.

Lemma null_added_Permutation : forall n l1 l2,
  Permutation l1 l2 -> null_added n l1 -> null_added n l2.
Proof.
  intros n l1 l2 H [Hlen Hin].
  pose proof (Permutation_lines_named n H) as Hp. split.
  - rewrite <- (Permutation_length Hp). exact Hlen.
  - eapply Permutation_in; [|exact Hin]. apply Permutation_map. exact Hp.
Qed.

Lemma sum_Z_Permutation : forall xs ys, Permutation xs ys -> sum_Z xs = sum_Z ys.
Proof.
  intros xs ys H. induction H; simpl; lia.
Qed.

Lemma map_Some_inj : forall (xs ys : list Z), map Some xs = map Some ys -> xs = ys.
Proof.
  induction xs as [|x xs IH]; intros [|y ys] H; simpl in H; try discriminate.
  - reflexivity.
  - injection H as -> H. f_equal. apply IH. exact H.
Qed.

Lemma amount_is_sum_Permutation : forall a1 a2 ams1 ams2,
  Permutation ams1 ams2 ->
  amount_is_sum a1 ams1 -> amount_is_sum a2 ams2 -> a1 = a2.
Proof.
  intros a1 a2 ams1 ams2 Hp H1 H2. unfold amount_is_sum in *.
  destruct a1 as [z1|], a2 as [z2|].
  - destruct H1 as (zs1 & -> & ->). destruct H2 as (zs2 & -> & ->).
    apply Permutation_sym in Hp.
    destruct (Permutation_map_inv _ _ Hp) as (zs3 & E & Hp3).
    apply map_Some_inj in E. subst zs3.
    f_equal. apply sum_Z_Permutation. exact Hp3.
  - destruct H1 as (zs1 & -> & _). subst ams2. exfalso.
    apply Permutation_sym in Hp.
    assert (Hin : In None (map Some zs1))
      by (eapply Permutation_in; [exact Hp|left; reflexivity]).
    apply in_map_iff in Hin. destruct Hin as (x & Hx & _). discriminate.
  - destruct H2 as (zs2 & -> & _). subst ams1. exfalso.
    assert (Hin : In None (map Some zs2))
      by (eapply Permutation_in; [exact Hp|left; reflexivity]).
    apply in_map_iff in Hin. destruct Hin as (x & Hx & _). discriminate.
  - reflexivity.
Qed.

Lemma accumulate_all_entry_amount : forall lines bl n e,
  accumulate_all lines [] = Ok bl -> In (n, e) bl ->
  amount_is_sum (entry_amount e) (map line_amount (lines_named n lines)).
Proof.
  intros lines bl n e Hacc HIn.
  pose proof (accumulate_all_aggregates _ Hacc) as Hagg.
  apply (@In_dict_get _ _ _ (aggregates_NoDup Hagg)) in HIn.
  destruct Hagg as [_ Hent].
  destruct (Hent _ _ HIn) as (l0 & rest & -> & _ & Ha). exact Ha.
Qed.

(** X2.  Two traversals that reach the same lines in different orders
    (whatever order the database returns the rows in) fail together, and
    when they succeed they have the same names and the same total under
    each name; only the order of the entries and the unit kept for a name
    can differ. *)
Theorem totals_do_not_depend_on_row_order : forall user1 db1 user2 db2 lines1 lines2,
  cart_lines db1 user1 = Some lines1 ->
  cart_lines db2 user2 = Some lines2 ->
  Permutation lines1 lines2 ->
  (fst (build_buying_list user1 db1) = Raise TypeError
   <-> fst (build_buying_list user2 db2) = Raise TypeError) /\
  (forall bl1 bl2,
     fst (build_buying_list user1 db1) = Ok bl1 ->
     fst (build_buying_list user2 db2) = Ok bl2 ->
     (forall n, In n (names_of bl1) <-> In n (names_of bl2)) /\
     (forall n e1 e2, In (n, e1) bl1 -> In (n, e2) bl2 ->
        entry_amount e1 = entry_amount e2)).
Proof.
  intros user1 db1 user2 db2 lines1 lines2 H1 H2 Hp.
  rewrite (build_of_lines _ _ H1), (build_of_lines _ _ H2). simpl. split.
  - rewrite !accumulate_all_TypeError_iff. split; intros [n Hn]; exists n.
    + eapply null_added_Permutation; eauto.
    + eapply null_added_Permutation; [apply Permutation_sym|]; eauto.
  - intros bl1 bl2 E1 E2. split.
    + intros n.
      destruct (accumulate_all_aggregates _ E1) as [-> _].
      destruct (accumulate_all_aggregates _ E2) as [-> _].
      rewrite !first_seen_In. split; apply Permutation_in.
      * apply Permutation_map. exact Hp.
      * apply Permutation_map. apply Permutation_sym. exact Hp.
    + intros n e1 e2 I1 I2.
      eapply amount_is_sum_Permutation.
      * apply Permutation_map. apply (Permutation_lines_named n Hp).
      * eapply accumulate_all_entry_amount; eauto.
      * eapply accumulate_all_entry_amount; eauto.
Qed.

Lemma totals_do_not_depend_on_row_order_witness :
  (fst (build_buying_list 1 sample_db) = Raise TypeError
   <-> fst (build_buying_list 1 sample_db_swapped) = Raise TypeError) /\
  (forall bl1 bl2,
     fst (build_buying_list 1 sample_db) = Ok bl1 ->
     fst (build_buying_list 1 sample_db_swapped) = Ok bl2 ->
     (forall n, In n (names_of bl1) <-> In n (names_of bl2)) /\
     (forall n e1 e2, In (n, e1) bl1 -> In (n, e2) bl2 ->
        entry_amount e1 = entry_amount e2)).
Proof.
  apply (@totals_do_not_depend_on_row_order 1 sample_db 1 sample_db_swapped
           [mk_Line "Flour" "gram" (Some 200); mk_Line "Sugar" "gram" (Some 100);
            mk_Line "Sugar" "gram" (Some 50)]
           [mk_Line "Sugar" "gram" (Some 50); mk_Line "Flour" "gram" (Some 200);
            mk_Line "Sugar" "gram" (Some 100)]).
  - reflexivity.
  - reflexivity.
  - apply Permutation_sym.
    apply (Permutation_cons_append
             [mk_Line "Flour" "gram" (Some 200); mk_Line "Sugar" "gram" (Some 100)]).
Defined.

Example swapped_rows_other_order :
  fst (build_buying_list 1 sample_db_swapped) =
  Ok [("Sugar", mk_Entry "gram" (Some 150)); ("Flour", mk_Entry "gram" (Some 200))].
Proof. reflexivity. Qed.

(* ------------------------------------------------------------------ *)
(** ** One page, however long the list *)

Lemma draw_items_no_showPage : forall items p height,
  filter is_showPage (fst (draw_items items p height)) = filter is_showPage p.
Proof.
  induction items as [|[n e] items IH]; intros p height; simpl; [reflexivity|].
  rewrite IH, filter_app. simpl. apply app_nil_r.
Qed.

(** X3.  The view never starts a second page: whatever the number of
    entries, the canvas ends exactly one page, and no more than one string
    is drawn at any height.  The strings of the entries after the 33rd are
    therefore drawn below the bottom edge, at negative heights. *)
Theorem single_page_overflows_downwards : forall bl now,
  pages (content (render bl now)) = 1%nat /\
  (forall i x y text,
     nth_error (drawn (content (render bl now))) i = Some (x, y, text) ->
     (y < 0 <-> (32 < i)%nat)) /\
  (forall i j x1 y1 t1 x2 y2 t2,
     nth_error (drawn (content (render bl now))) i = Some (x1, y1, t1) ->
     nth_error (drawn (content (render bl now))) j = Some (x2, y2, t2) ->
     y1 = y2 -> i = j).
Proof.
  intros bl now. split; [|split].
  - unfold pages. rewrite content_render, filter_app, draw_items_no_showPage.
    reflexivity.
  - intros i x y text H. apply drawn_render_at in H. destruct H as [_ ->]. lia.
  - intros i j x1 y1 t1 x2 y2 t2 H1 H2 E.
    apply drawn_render_at in H1. apply drawn_render_at in H2.
    destruct H1 as [_ ->]. destruct H2 as [_ E2]. lia.
Qed.

(* ------------------------------------------------------------------ *)
(** ** Foreign keys that resolve *)





Lemma download_shopping_cart_request_logged_in : forall request user now db,
  request_user request = LoggedIn user ->
  download_shopping_cart_request request true now db =
  match download_shopping_cart (user_pk user) now db with
  | (Ok resp, db') => (Answered resp, db')
  | (Raise e, db') => (Failed (Raised e), db')
  end.
Proof.
  intros request user now db H.
  unfold download_shopping_cart_request, download_shopping_cart, bind, ret.
  rewrite H. destruct (build_buying_list (user_pk user) db) as [[bl|e] db']; reflexivity.
Qed.



(* ================================================================== *)
(** * Further properties of the cart views *)

Lemma filter_filter_comm : forall A (p q : A -> bool) l,
  filter p (filter q l) = filter q (filter p l).
Proof.
  intros A p q l. induction l as [|a l IH]; simpl; [reflexivity|].
  destruct (q a) eqn:Q, (p a) eqn:P; simpl; rewrite ?Q, ?P, IH; reflexivity.
Qed.

Lemma filter_none : forall A (p : A -> bool) l,
  (forall a, In a l -> p a = false) -> filter p l = [].
Proof.
  intros A p l. induction l as [|a l IH]; simpl; intros H; [reflexivity|].
  rewrite (H a (or_introl eq_refl)). apply IH. intros b Hb. apply H. right. exact Hb.
Qed.

Lemma filter_all : forall A (p : A -> bool) l,
  (forall a, In a l -> p a = true) -> filter p l = l.
Proof.
  intros A p l. induction l as [|a l IH]; simpl; intros H; [reflexivity|].
  rewrite (H a (or_introl eq_refl)). f_equal. apply IH.
  intros b Hb. apply H. right. exact Hb.
Qed.

(** A successful add: what the view returned and what it left. *)
Lemma ShoppingCartViewSet_get_201 : forall is_valid user recipe_id now db resp db',
  ShoppingCartViewSet_get is_valid user recipe_id now db = (Ok resp, db') ->
  status resp = 201 ->
  let row := mk_ShoppingCart (shopping_cart_seq db) user recipe_id now in
  filter (fun r => (sc_user r =? user) && (sc_recipe r =? recipe_id)) (shopping_cart db)
    = [] /\
  insert_allowed db user recipe_id = true /\
  resp = mk_Response 201 (SerializerData row) /\
  db' = mk_DB (ingredients db) (recipes db) (recipe_ingredients db)
          (shopping_cart db ++ [row]) (shopping_cart_seq db + 1).
Proof.
  intros is_valid user recipe_id now db resp db' H Hs row.
  rewrite ShoppingCartViewSet_get_cases in H. cbv zeta in H.
  destruct (filter _ (shopping_cart db)) as [|r rows] eqn:E.
  - destruct (is_valid db user recipe_id).
    + destruct (insert_allowed db user recipe_id); [|discriminate].
      injection H as <- <-. repeat split.
    + injection H as <- <-. simpl in Hs. discriminate.
  - injection H as <- <-. simpl in Hs. discriminate.
Qed.

(** A successful remove: what the view found and what it left. *)
Lemma ShoppingCartViewSet_delete_204 : forall user recipe_id db resp db',
  ShoppingCartViewSet_delete user recipe_id db = (Ok resp, db') ->
  status resp = 204 ->
  exists recipe row,
    find_recipe db recipe_id = Ok recipe /\
    filter (fun r => (sc_user r =? user) && (sc_recipe r =? recipe_id)) (shopping_cart db)
      = [row] /\
    db' = mk_DB (ingredients db) (recipes db) (recipe_ingredients db)
            (filter (fun r => negb (sc_id r =? sc_id row)) (shopping_cart db))
            (shopping_cart_seq db).
Proof.
  intros user recipe_id db resp db' H Hs.
  rewrite ShoppingCartViewSet_delete_cases in H.
  destruct (find_recipe db recipe_id) as [recipe|[]] eqn:Hrec; try discriminate.
  rewrite (find_recipe_pk _ _ Hrec) in H.
  destruct (filter _ (shopping_cart db)) as [|row [|row' rows]] eqn:E;
    try discriminate; injection H as <- <-.
  - simpl in Hs. discriminate.
  - exists recipe, row. repeat split.
Qed.

(** X5.  After an add that answered 201, a second add of the same recipe by
    the same user answers 400 "Уже в корзине" and changes nothing, whatever
    the serializer would say and whatever the time. *)
Theorem add_twice_rejected : forall is_valid is_valid' user recipe_id now now' db resp db1,
  ShoppingCartViewSet_get is_valid user recipe_id now db = (Ok resp, db1) ->
  status resp = 201 ->
  ShoppingCartViewSet_get is_valid' user recipe_id now' db1
  = (Ok (mk_Response 400 (Message "Уже в корзине")), db1).
Proof.
  intros is_valid is_valid' user recipe_id now now' db resp db1 H Hs.
  destruct (ShoppingCartViewSet_get_201 _ _ _ _ _ H Hs) as (E & _ & _ & ->).
  rewrite ShoppingCartViewSet_get_cases. cbv zeta. simpl shopping_cart.
  rewrite filter_app, E. simpl. rewrite !Z.eqb_refl. reflexivity.
Qed.

Lemma add_twice_rejected_witness :
  ShoppingCartViewSet_get (fun _ _ _ => false) 1 12 sample_now
    (snd (ShoppingCartViewSet_get (fun _ _ _ => true) 1 12 sample_now sample_db))
  = (Ok (mk_Response 400 (Message "Уже в корзине")),
     snd (ShoppingCartViewSet_get (fun _ _ _ => true) 1 12 sample_now sample_db)).
Proof.
  apply (@add_twice_rejected (fun _ _ _ => true) (fun _ _ _ => false) 1 12
           sample_now sample_now sample_db
           (mk_Response 201 (SerializerData (mk_ShoppingCart 8 1 12 sample_now)))).
  - reflexivity.
  - reflexivity.
Defined.

Lemma filter_after_delete : forall user recipe_id rows row,
  filter (fun r => (sc_user r =? user) && (sc_recipe r =? recipe_id)) rows = [row] ->
  filter (fun r => (sc_user r =? user) && (sc_recipe r =? recipe_id))
         (filter (fun r => negb (sc_id r =? sc_id row)) rows) = [].
Proof.
  intros user recipe_id rows row E.
  rewrite filter_filter_comm, E. simpl. rewrite Z.eqb_refl. reflexivity.
Qed.

(** X6.  After a remove that answered 204, a second remove of the same
    recipe by the same user answers 400 and changes nothing: the entry is
    gone. *)
Theorem remove_twice_rejected : forall user recipe_id db resp db1,
  ShoppingCartViewSet_delete user recipe_id db = (Ok resp, db1) ->
  status resp = 204 ->
  ShoppingCartViewSet_delete user recipe_id db1 = (Ok (mk_Response 400 NoBody), db1).
Proof.
  intros user recipe_id db resp db1 H Hs.
  destruct (ShoppingCartViewSet_delete_204 _ _ _ H Hs) as (recipe & row & Hrec & E & ->).
  rewrite ShoppingCartViewSet_delete_cases.
  change (find_recipe (mk_DB (ingredients db) (recipes db) (recipe_ingredients db)
                         (filter (fun r => negb (sc_id r =? sc_id row)) (shopping_cart db))
                         (shopping_cart_seq db)) recipe_id)
    with (find_recipe db recipe_id).
  rewrite Hrec, (find_recipe_pk _ _ Hrec). simpl shopping_cart.
  rewrite (filter_after_delete _ _ _ E). reflexivity.
Qed.

Lemma remove_twice_rejected_witness :
  ShoppingCartViewSet_delete 1 10 (snd (ShoppingCartViewSet_delete 1 10 sample_db))
  = (Ok (mk_Response 400 NoBody), snd (ShoppingCartViewSet_delete 1 10 sample_db)).
Proof.
  apply (@remove_twice_rejected 1 10 sample_db (mk_Response 204 NoBody)).
  - reflexivity.
  - reflexivity.
Defined.

(** X7.  Add, then remove: when the keys of the cart table are below the
    next key and the recipe resolves, removing the recipe just added
    answers 204 and gives back every table as it was before the add; only
    the key counter has moved on. *)
Theorem add_then_remove_restores : forall is_valid user recipe_id now db resp db1 recipe,
  (forall r, In r (shopping_cart db) -> sc_id r < shopping_cart_seq db) ->
  find_recipe db recipe_id = Ok recipe ->
  ShoppingCartViewSet_get is_valid user recipe_id now db = (Ok resp, db1) ->
  status resp = 201 ->
  ShoppingCartViewSet_delete user recipe_id db1
  = (Ok (mk_Response 204 NoBody),
     mk_DB (ingredients db) (recipes db) (recipe_ingredients db) (shopping_cart db)
           (shopping_cart_seq db + 1)).
Proof.
  intros is_valid user recipe_id now db resp db1 recipe Hfresh Hrec H Hs.
  destruct (ShoppingCartViewSet_get_201 _ _ _ _ _ H Hs) as (E & _ & _ & ->).
  rewrite ShoppingCartViewSet_delete_cases.
  change (find_recipe (mk_DB (ingredients db) (recipes db) (recipe_ingredients db)
                         (shopping_cart db
                          ++ [mk_ShoppingCart (shopping_cart_seq db) user recipe_id now])
                         (shopping_cart_seq db + 1)) recipe_id)
    with (find_recipe db recipe_id).
  rewrite Hrec, (find_recipe_pk _ _ Hrec). simpl shopping_cart.
  rewrite filter_app, E. simpl. rewrite !Z.eqb_refl. simpl.
  rewrite filter_app. simpl. rewrite Z.eqb_refl. simpl.
  rewrite app_nil_r, filter_all; [reflexivity|].
  intros r Hr. specialize (Hfresh r Hr).
  destruct (sc_id r =? shopping_cart_seq db) eqn:Eq; [|reflexivity].
  apply Z.eqb_eq in Eq. lia.
Qed.

Lemma add_then_remove_restores_witness :
  ShoppingCartViewSet_delete 1 12
    (mk_DB (ingredients sample_db) (recipes sample_db) (recipe_ingredients sample_db)
       (shopping_cart sample_db ++ [mk_ShoppingCart 8 1 12 sample_now]) 9)
  = (Ok (mk_Response 204 NoBody),
     mk_DB (ingredients sample_db) (recipes sample_db) (recipe_ingredients sample_db)
           (shopping_cart sample_db) (shopping_cart_seq sample_db + 1)).
Proof.
  apply (@add_then_remove_restores (fun _ _ _ => true) 1 12 sample_now sample_db
           (mk_Response 201 (SerializerData (mk_ShoppingCart 8 1 12 sample_now)))
           _ (mk_Recipe 12 2 "Syrup" "Stir." 10 sample_now)).
  - intros r Hr. simpl in Hr.
    repeat (destruct Hr as [<-|Hr]; [simpl; lia|]). contradiction.
  - reflexivity.
  - reflexivity.
  - reflexivity.
Defined.

Lemma cart_keys_ok_filter : forall db p,
  cart_keys_ok db ->
  cart_keys_ok (mk_DB (ingredients db) (recipes db) (recipe_ingredients db)
                  (filter p (shopping_cart db)) (shopping_cart_seq db)).
Proof.
  intros db p [ND Hlt]. split; simpl.
  - apply NoDup_map_filter. exact ND.
  - intros r Hr. apply filter_In in Hr. apply Hlt. tauto.
Qed.

(** X8.  Distinct primary keys below the next key, in the cart table, are
    kept by the add view, the remove view, the deletion of a recipe and the
    download: a created row takes the next key and the counter moves past
    it. *)
Theorem cart_keys_preserved : forall is_valid user recipe_id now db,
  cart_keys_ok db ->
  cart_keys_ok (snd (ShoppingCartViewSet_get is_valid user recipe_id now db)) /\
  cart_keys_ok (snd (ShoppingCartViewSet_delete user recipe_id db)) /\
  cart_keys_ok (snd (Recipe_delete recipe_id db)) /\
  cart_keys_ok (snd (download_shopping_cart user now db)).
Proof.
  intros is_valid user recipe_id now db Hok.
  split; [|split; [|split]].
  - rewrite ShoppingCartViewSet_get_cases. cbv zeta.
    destruct (filter _ (shopping_cart db)) as [|r rows]; [|exact Hok].
    destruct (is_valid db user recipe_id); [|exact Hok].
    destruct (insert_allowed db user recipe_id); [|exact Hok].
    destruct Hok as [ND Hlt]. split; simpl.
    + rewrite map_app. simpl. apply NoDup_app; [exact ND|repeat constructor; tauto|].
      intros k Hk [<-|[]]. apply in_map_iff in Hk. destruct Hk as (r & Hr & HIn).
      specialize (Hlt r HIn). lia.
    + intros r Hr. apply in_app_or in Hr. destruct Hr as [Hr|[<-|[]]].
      * specialize (Hlt r Hr). lia.
      * simpl. lia.
  - rewrite ShoppingCartViewSet_delete_cases.
    destruct (find_recipe db recipe_id) as [recipe|[]]; try exact Hok.
    destruct (filter _ (shopping_cart db)) as [|row [|row' rows]]; try exact Hok.
    simpl. apply cart_keys_ok_filter. exact Hok.
  - simpl. apply cart_keys_ok_filter. exact Hok.
  - rewrite (read_only_download_shopping_cart user now db). exact Hok.
Qed.

Lemma cart_keys_ok_sample_db : cart_keys_ok sample_db.
Proof.
  split.
  - simpl. repeat (constructor; [simpl; intuition discriminate|]). constructor.
  - intros r Hr. simpl in Hr.
    repeat (destruct Hr as [<-|Hr]; [simpl; lia|]). contradiction.
Qed.

Lemma cart_keys_preserved_witness :
  cart_keys_ok (snd (ShoppingCartViewSet_get (fun _ _ _ => true) 1 12 sample_now sample_db)) /\
  cart_keys_ok (snd (ShoppingCartViewSet_delete 1 12 sample_db)) /\
  cart_keys_ok (snd (Recipe_delete 12 sample_db)) /\
  cart_keys_ok (snd (download_shopping_cart 1 sample_now sample_db)).
Proof.
  apply (@cart_keys_preserved (fun _ _ _ => true) 1 12 sample_now sample_db
           cart_keys_ok_sample_db).
Defined.

(* ------------------------------------------------------------------ *)
(** ** One user's views and another user's list *)

Lemma traversal_same_tables : forall db db' user,
  ingredients db' = ingredients db ->
  recipes db' = recipes db ->
  recipe_ingredients db' = recipe_ingredients db ->
  filter (fun r => sc_user r =? user) (shopping_cart db')
    = filter (fun r => sc_user r =? user) (shopping_cart db) ->
  traversal db' user = traversal db user.
Proof.
  intros [i r ri c s] [i' r' ri' c' s'] user. simpl.
  intros -> -> -> H. unfold traversal. simpl. rewrite H. reflexivity.
Qed.

Lemma build_same_traversal : forall db db' user,
  traversal db' user = traversal db user ->
  fst (build_buying_list user db') = fst (build_buying_list user db).
Proof.
  intros db db' user H. rewrite !build_buying_list_run. simpl. rewrite H. reflexivity.
Qed.

Lemma NoDup_map_same_key : forall A B (f : A -> B) l a b,
  NoDup (map f l) -> In a l -> In b l -> f a = f b -> a = b.
Proof.
  intros A B f l a b. induction l as [|x l IH]; simpl; intros ND Ha Hb E; [contradiction|].
  inversion ND as [|? ? Hx ND']; subst.
  destruct Ha as [->|Ha], Hb as [->|Hb]; auto.
  - exfalso. apply Hx. rewrite E. apply in_map. exact Hb.
  - exfalso. apply Hx. rewrite <- E. apply in_map. exact Ha.
Qed.

(** X9.  The cart views of one user leave the list of every other user as
    it was: after an add or a remove by [user], whatever its outcome, the
    aggregation for [other] gives the same dictionary or the same
    exception (the primary keys of the cart table being distinct). *)
Theorem other_users_list_untouched : forall is_valid user other recipe_id now db,
  other <> user ->
  NoDup (map sc_id (shopping_cart db)) ->
  fst (build_buying_list other
         (snd (ShoppingCartViewSet_get is_valid user recipe_id now db)))
    = fst (build_buying_list other db) /\
  fst (build_buying_list other (snd (ShoppingCartViewSet_delete user recipe_id db)))
    = fst (build_buying_list other db).
Proof.
  intros is_valid user other recipe_id now db Hne ND. split.
  - rewrite ShoppingCartViewSet_get_cases. cbv zeta.
    destruct (filter _ (shopping_cart db)) as [|r rows]; [|reflexivity].
    destruct (is_valid db user recipe_id); [|reflexivity].
    destruct (insert_allowed db user recipe_id); [|reflexivity].
    apply build_same_traversal. apply traversal_same_tables; try reflexivity.
    simpl. rewrite filter_app. simpl.
    destruct (user =? other) eqn:E; [apply Z.eqb_eq in E; congruence|].
    apply app_nil_r.
  - rewrite ShoppingCartViewSet_delete_cases.
    destruct (find_recipe db recipe_id) as [recipe|[]]; try reflexivity.
    destruct (filter _ (shopping_cart db)) as [|row [|row' rows]] eqn:E;
      try reflexivity.
    apply build_same_traversal. apply traversal_same_tables; try reflexivity.
    simpl. rewrite filter_filter_comm. apply filter_all.
    intros r Hr. apply filter_In in Hr. destruct Hr as [Hr Hu].
    apply Z.eqb_eq in Hu.
    assert (Hrow : In row (filter (fun r0 => (sc_user r0 =? user)
                                             && (sc_recipe r0 =? recipe_pk recipe))
                                  (shopping_cart db)))
      by (rewrite E; left; reflexivity).
    apply filter_In in Hrow. destruct Hrow as [Hrow Hb].
    apply andb_prop in Hb. destruct Hb as [Hb _]. apply Z.eqb_eq in Hb.
    destruct (sc_id r =? sc_id row) eqn:Eid; [|reflexivity].
    apply Z.eqb_eq in Eid.
    pose proof (NoDup_map_same_key sc_id _ _ _ ND Hr Hrow Eid) as ->. congruence.
Qed.

Lemma other_users_list_untouched_witness :
  fst (build_buying_list 2
         (snd (ShoppingCartViewSet_get (fun _ _ _ => true) 1 12 sample_now sample_db)))
    = fst (build_buying_list 2 sample_db) /\
  fst (build_buying_list 2 (snd (ShoppingCartViewSet_delete 1 10 sample_db)))
    = fst (build_buying_list 2 sample_db).
Proof.
  split.
  - apply (@other_users_list_untouched (fun _ _ _ => true) 1 2 12 sample_now sample_db).
    + discriminate.
    + apply cart_keys_ok_sample_db.
  - apply (@other_users_list_untouched (fun _ _ _ => true) 1 2 10 sample_now sample_db).
    + discriminate.
    + apply cart_keys_ok_sample_db.
Defined.

(* ------------------------------------------------------------------ *)
(** ** One more cart entry, wherever the database places it *)

Lemma Permutation_filter_both : forall A (p : A -> bool) l1 l2,
  Permutation l1 l2 -> Permutation (filter p l1) (filter p l2).
Proof.
  intros A p l1 l2 H.
  induction H as [|x l l' H IH|x y l|l l' l'' H1 IH1 H2 IH2]; simpl.
  - constructor.
  - destruct (p x); [constructor|]; exact IH.
  - destruct (p x), (p y); try apply Permutation_refl. apply perm_swap.
  - eapply Permutation_trans; eauto.
Qed.

Lemma Permutation_flat_map_both : forall A B (f : A -> list B) l1 l2,
  Permutation l1 l2 -> Permutation (flat_map f l1) (flat_map f l2).
Proof.
  intros A B f l1 l2 H.
  induction H as [|x l l' H IH|x y l|l l' l'' H1 IH1 H2 IH2]; simpl.
  - constructor.
  - apply Permutation_app_head. exact IH.
  - rewrite !app_assoc. apply Permutation_app_tail. apply Permutation_app_comm.
  - eapply Permutation_trans; eauto.
Qed.

Lemma sequence_map_Ok : forall steps lines,
  sequence steps = Some lines <-> steps = map Ok lines.
Proof.
  induction steps as [|[l|e] steps IH]; intros lines; simpl.
  - split; intros H.
    + injection H as <-. reflexivity.
    + destruct lines; [reflexivity|discriminate].
  - destruct (sequence steps) as [ls|] eqn:E.
    + split; intros H.
      * injection H as <-. simpl. f_equal. apply IH. reflexivity.
      * destruct lines as [|l' lines]; [discriminate|]. simpl in H.
        injection H as -> H. apply IH in H. congruence.
    + split; intros H; [discriminate|].
      destruct lines as [|l' lines]; [discriminate|]. simpl in H.
      injection H as _ H. apply IH in H. discriminate.
  - split; intros H; [discriminate|]. destruct lines; discriminate.
Qed.

Lemma sequence_Permutation : forall s1 s2 l1,
  Permutation s1 s2 -> sequence s1 = Some l1 ->
  exists l2, sequence s2 = Some l2 /\ Permutation l1 l2.
Proof.
  intros s1 s2 l1 Hp H. apply sequence_map_Ok in H. subst s1.
  apply Permutation_sym in Hp.
  destruct (Permutation_map_inv _ _ Hp) as (l2 & -> & Hp2).
  exists l2. split; [apply sequence_map_Ok; reflexivity|exact Hp2].
Qed.

Lemma sequence_app_inv : forall s1 s2 l,
  sequence (s1 ++ s2) = Some l ->
  exists l1 l2, sequence s1 = Some l1 /\ sequence s2 = Some l2 /\ l = (l1 ++ l2)%list.
Proof.
  induction s1 as [|[a|e] s1 IH]; intros s2 l H; simpl in *.
  - exists [], l. auto.
  - destruct (sequence (s1 ++ s2)) as [ls|] eqn:E; [|discriminate].
    injection H as <-. destruct (IH _ _ E) as (l1 & l2 & -> & H2 & ->).
    exists (a :: l1), l2. auto.
  - discriminate.
Qed.

Lemma null_added_app_r : forall n new lines,
  null_added n lines -> null_added n (new ++ lines).
Proof.
  intros n new lines [Hlen Hin]. unfold null_added.
  rewrite lines_named_app, length_app, map_app. split; [lia|].
  apply in_or_app. right. exact Hin.
Qed.

Lemma amount_is_sum_transport : forall a ams ams',
  Permutation ams ams' -> amount_is_sum a ams -> amount_is_sum a ams'.
Proof.
  intros [z|] ams ams' Hp H; simpl in *.
  - destruct H as (zs & -> & ->). apply Permutation_sym in Hp.
    destruct (Permutation_map_inv _ _ Hp) as (zs' & -> & Hp').
    exists zs'. split; [reflexivity|]. apply sum_Z_Permutation. exact Hp'.
  - subst ams. apply Permutation_length_1_inv in Hp. exact Hp.
Qed.

Lemma all_Some_map : forall (xs : list (option Z)),
  (forall x, In x xs -> exists z, x = Some z) -> exists zs, xs = map Some zs.
Proof.
  induction xs as [|x xs IH]; intros H.
  - exists []. reflexivity.
  - destruct (H x (or_introl eq_refl)) as [z ->].
    destruct IH as [zs ->]; [intros y Hy; apply H; right; exact Hy|].
    exists (z :: zs). reflexivity.
Qed.

(** The database left by an add that answered 201 is the old one with one
    more cart row of the user. *)
Lemma add_201_one_more_row : forall is_valid user recipe_id now db resp db1,
  ShoppingCartViewSet_get is_valid user recipe_id now db = (Ok resp, db1) ->
  status resp = 201 ->
  let row := mk_ShoppingCart (shopping_cart_seq db) user recipe_id now in
  ingredients db1 = ingredients db /\
  recipes db1 = recipes db /\
  recipe_ingredients db1 = recipe_ingredients db /\
  Permutation (shopping_cart db1) (row :: shopping_cart db).
Proof.
  intros is_valid user recipe_id now db resp db1 H Hs row.
  destruct (ShoppingCartViewSet_get_201 _ _ _ _ _ H Hs) as (_ & _ & _ & ->).
  simpl. repeat split. apply Permutation_sym. apply Permutation_cons_append.
Qed.

Lemma traversal_one_more_row : forall db db1 user row,
  ingredients db1 = ingredients db ->
  recipes db1 = recipes db ->
  recipe_ingredients db1 = recipe_ingredients db ->
  Permutation (shopping_cart db1) (row :: shopping_cart db) ->
  sc_user row = user ->
  Permutation (traversal db1 user) (recipe_lines db row ++ traversal db user).
Proof.
  intros [i r ri c s] [i1 r1 ri1 c1 s1] user row. simpl.
  intros -> -> -> Hp Hu. unfold traversal. simpl shopping_cart.
  apply (Permutation_filter_both (fun x => sc_user x =? user)) in Hp.
  simpl in Hp. rewrite Hu, Z.eqb_refl in Hp.
  apply (Permutation_flat_map_both
           (recipe_lines (mk_DB i r ri c1 s1))) in Hp.
  exact Hp.
Qed.

(** What the two lists have to do with each other, on resolved lines. *)
Lemma lines_one_more_row : forall db db1 user row bl1,
  ingredients db1 = ingredients db ->
  recipes db1 = recipes db ->
  recipe_ingredients db1 = recipe_ingredients db ->
  Permutation (shopping_cart db1) (row :: shopping_cart db) ->
  sc_user row = user ->
  fst (build_buying_list user db1) = Ok bl1 ->
  exists lines new lines1,
    cart_lines db user = Some lines /\
    sequence (recipe_lines db row) = Some new /\
    cart_lines db1 user = Some lines1 /\
    accumulate_all lines1 [] = Ok bl1 /\
    Permutation lines1 (new ++ lines).
Proof.
  intros db db1 user row bl1 Hi Hr Hri Hp Hu H1.
  rewrite build_buying_list_run in H1. simpl in H1.
  destruct (run_ok_sequence _ _ H1) as [lines1 Hs1].
  rewrite (run_sequence _ [] Hs1) in H1.
  pose proof (traversal_one_more_row db db1 Hi Hr Hri Hp Hu) as Ht.
  destruct (sequence_Permutation Ht Hs1) as (l2 & Hs2 & Hp2).
  destruct (sequence_app_inv _ _ Hs2) as (new & lines & Hnew & Hlines & ->).
  exists lines, new, lines1. repeat split; assumption.
Qed.

(** X10.  One more cart row of the user, wherever the database places it
    among the rows: a list that raised before still raises; and when the
    old and the new list both succeed, the new names are the old names and
    those of the lines of the added row's recipe, every old entry is still
    there, with its total unchanged when the added recipe has no line of
    its name, and with the old total plus the added recipe's amounts of
    that name when both totals are integers. *)
Theorem one_more_row_grows_list : forall db db1 user row,
  ingredients db1 = ingredients db ->
  recipes db1 = recipes db ->
  recipe_ingredients db1 = recipe_ingredients db ->
  Permutation (shopping_cart db1) (row :: shopping_cart db) ->
  sc_user row = user ->
  (forall e, fst (build_buying_list user db) = Raise e ->
             exists e', fst (build_buying_list user db1) = Raise e') /\
  (forall bl bl1,
     fst (build_buying_list user db) = Ok bl ->
     fst (build_buying_list user db1) = Ok bl1 ->
     exists new,
       sequence (recipe_lines db row) = Some new /\
       (forall n, In n (names_of bl1) <->
                  In n (names_of bl) \/ In n (map line_name new)) /\
       (forall n e, In (n, e) bl ->
          exists e1,
            In (n, e1) bl1 /\
            (lines_named n new = [] -> entry_amount e1 = entry_amount e) /\
            (forall z z1,
               entry_amount e = Some z -> entry_amount e1 = Some z1 ->
               exists added,
                 map line_amount (lines_named n new) = map Some added /\
                 z1 = z + sum_Z added))).
Proof.
  intros db db1 user row Hi Hr Hri Hp Hu. split.
  - intros e He.
    destruct (fst (build_buying_list user db1)) as [bl1|e'] eqn:E1; [|eauto].
    exfalso.
    destruct (lines_one_more_row db db1 Hi Hr Hri Hp Hu E1)
      as (lines & new & lines1 & Hl & _ & _ & Hacc1 & Hperm).
    rewrite (build_of_lines _ _ Hl) in He. simpl in He.
    pose proof (accumulate_all_raises_TypeError _ _ He) as ->.
    apply accumulate_all_TypeError_iff in He. destruct He as [n Hn].
    assert (H1 : accumulate_all lines1 [] = Raise TypeError).
    { apply accumulate_all_TypeError_iff. exists n.
      eapply null_added_Permutation; [apply Permutation_sym; exact Hperm|].
      apply null_added_app_r. exact Hn. }
    congruence.
  - intros bl bl1 H0 H1.
    destruct (lines_one_more_row db db1 Hi Hr Hri Hp Hu H1)
      as (lines & new & lines1 & Hl & Hnew & _ & Hacc1 & Hperm).
    rewrite (build_of_lines _ _ Hl) in H0. simpl in H0.
    pose proof (accumulate_all_aggregates _ H0) as Hagg.
    pose proof (accumulate_all_aggregates _ Hacc1) as Hagg1.
    pose proof (aggregates_NoDup Hagg) as ND.
    assert (Hnames : forall n, In n (names_of bl1) <->
                               In n (names_of bl) \/ In n (map line_name new)).
    { intros n. destruct Hagg as [-> _]. destruct Hagg1 as [-> _].
      rewrite !first_seen_In. split.
      - intros H. apply (Permutation_in _ (Permutation_map line_name Hperm)) in H.
        rewrite map_app, in_app_iff in H. tauto.
      - intros H.
        apply (Permutation_in _ (Permutation_sym (Permutation_map line_name Hperm))).
        rewrite map_app, in_app_iff. tauto. }
    exists new. split; [exact Hnew|]. split; [exact Hnames|].
    intros n e HIn.
    assert (Hkey : In n (names_of bl1)).
    { apply Hnames. left. change n with (fst (n, e)). apply in_map. exact HIn. }
    destruct (dict_get bl1 n) as [e1|] eqn:Hget;
      [|apply dict_get_None in Hget; contradiction].
    pose proof (dict_get_Some_In _ _ Hget) as HIn1.
    exists e1. split; [exact HIn1|].
    pose proof (accumulate_all_entry_amount _ _ _ H0 HIn) as Ha.
    pose proof (accumulate_all_entry_amount _ _ _ Hacc1 HIn1) as Ha1.
    assert (Hpn : Permutation (map line_amount (lines_named n lines1))
                    (map line_amount (lines_named n new)
                     ++ map line_amount (lines_named n lines))).
    { rewrite <- map_app, <- lines_named_app. apply Permutation_map.
      apply Permutation_lines_named. exact Hperm. }
    apply (amount_is_sum_transport _ Hpn) in Ha1. split.
    + intros Hnone. rewrite Hnone in Ha1. simpl in Ha1.
      eapply amount_is_sum_Permutation; [apply Permutation_refl|exact Ha1|exact Ha].
    + intros z z1 Hz Hz1. rewrite Hz in Ha. rewrite Hz1 in Ha1.
      destruct Ha as (zs & Hzs & ->). destruct Ha1 as (zs1 & Hzs1 & ->).
      destruct (all_Some_map (map line_amount (lines_named n new))) as [added Hadded].
      { intros x Hx.
        assert (Hx1 : In x (map Some zs1)).
        { rewrite <- Hzs1. apply in_or_app. left. exact Hx. }
        apply in_map_iff in Hx1. destruct Hx1 as (y & <- & _). eauto. }
      exists added. split; [exact Hadded|].
      rewrite Hadded, Hzs, <- map_app in Hzs1. apply map_Some_inj in Hzs1.
      rewrite <- Hzs1, sum_Z_app. lia.
Qed.

Lemma one_more_row_grows_list_witness :
  let db1 := snd (ShoppingCartViewSet_get (fun _ _ _ => true) 1 12 sample_now sample_db) in
  (forall e, fst (build_buying_list 1 sample_db) = Raise e ->
             exists e', fst (build_buying_list 1 db1) = Raise e') /\
  (forall bl bl1,
     fst (build_buying_list 1 sample_db) = Ok bl ->
     fst (build_buying_list 1 db1) = Ok bl1 ->
     exists new,
       sequence (recipe_lines sample_db (mk_ShoppingCart 8 1 12 sample_now)) = Some new /\
       (forall n, In n (names_of bl1) <->
                  In n (names_of bl) \/ In n (map line_name new)) /\
       (forall n e, In (n, e) bl ->
          exists e1,
            In (n, e1) bl1 /\
            (lines_named n new = [] -> entry_amount e1 = entry_amount e) /\
            (forall z z1,
               entry_amount e = Some z -> entry_amount e1 = Some z1 ->
               exists added,
                 map line_amount (lines_named n new) = map Some added /\
                 z1 = z + sum_Z added))).
Proof.
  apply (@one_more_row_grows_list sample_db
           (snd (ShoppingCartViewSet_get (fun _ _ _ => true) 1 12 sample_now sample_db))
           1 (mk_ShoppingCart 8 1 12 sample_now)).
  - reflexivity.
  - reflexivity.
  - reflexivity.
  - apply Permutation_sym.
    apply (Permutation_cons_append (shopping_cart sample_db)
             (mk_ShoppingCart 8 1 12 sample_now)).
  - reflexivity.
Defined.

Example list_after_add :
  fst (build_buying_list 1
         (snd (ShoppingCartViewSet_get (fun _ _ _ => true) 1 12 sample_now sample_db)))
  = Ok [("Flour", mk_Entry "gram" (Some 200)); ("Sugar", mk_Entry "gram" (Some 152))].
Proof. reflexivity. Qed.

(* ------------------------------------------------------------------ *)
(** ** Deleting a recipe *)

Lemma find_recipe_after_delete : forall db pk k,
  k <> pk ->
  find_recipe (snd (Recipe_delete pk db)) k = find_recipe db k.
Proof.
  intros db pk k Hne. unfold find_recipe. simpl.
  rewrite filter_filter_comm, filter_all; [reflexivity|].
  intros r Hr. apply filter_In in Hr. destruct Hr as [_ Hr].
  apply Z.eqb_eq in Hr. destruct (recipe_pk r =? pk) eqn:E; [|reflexivity].
  apply Z.eqb_eq in E. congruence.
Qed.

Lemma recipe_lines_after_delete : forall db pk record,
  sc_recipe record <> pk ->
  recipe_lines (snd (Recipe_delete pk db)) record = recipe_lines db record.
Proof.
  intros db pk record Hne. unfold recipe_lines.
  rewrite (find_recipe_after_delete db Hne).
  destruct (find_recipe db (sc_recipe record)) as [recipe|e] eqn:Hrec; [|reflexivity].
  apply find_recipe_pk in Hrec. simpl recipe_ingredients.
  rewrite filter_filter_comm, filter_all; [reflexivity|].
  intros r Hr. apply filter_In in Hr. destruct Hr as [_ Hr].
  apply Z.eqb_eq in Hr. destruct (ri_recipe r =? pk) eqn:E; [|reflexivity].
  apply Z.eqb_eq in E. congruence.
Qed.

Lemma shopping_cart_after_delete : forall db pk,
  shopping_cart (snd (Recipe_delete pk db))
  = filter (fun r => negb (sc_recipe r =? pk)) (shopping_cart db).
Proof. reflexivity. Qed.

Lemma flat_map_after_delete : forall db pk rows,
  flat_map (recipe_lines (snd (Recipe_delete pk db)))
           (filter (fun r => negb (sc_recipe r =? pk)) rows)
  = flat_map (recipe_lines db) (filter (fun r => negb (sc_recipe r =? pk)) rows).
Proof.
  intros db pk rows. induction rows as [|r rows IH]; [reflexivity|].
  cbn [filter]. destruct (sc_recipe r =? pk) eqn:E; cbn [negb]; [exact IH|].
  apply Z.eqb_neq in E. cbn [flat_map].
  rewrite IH, (recipe_lines_after_delete db r E). reflexivity.
Qed.

(** X11.  Deleting a recipe takes with it the cart entries and the
    recipe-ingredient lines that point to it, and nothing else of them:
    every user's traversal afterwards is the old one without the entries of
    that recipe, no row refers to the recipe any more, and foreign keys
    that resolved before still resolve. *)
Theorem recipe_delete_cascades : forall pk db,
  let db' := snd (Recipe_delete pk db) in
  (forall user,
     traversal db' user
     = flat_map (recipe_lines db)
         (filter (fun r => negb (sc_recipe r =? pk))
                 (filter (fun r => sc_user r =? user) (shopping_cart db)))) /\
  (forall r, In r (shopping_cart db') -> sc_recipe r <> pk) /\
  (forall ri, In ri (recipe_ingredients db') -> ri_recipe ri <> pk) /\
  (fk_ok db -> fk_ok db').
Proof.
  intros pk db db'. subst db'. split; [|split; [|split]].
  - intros user. unfold traversal.
    rewrite shopping_cart_after_delete, filter_filter_comm.
    apply flat_map_after_delete.
  - intros r Hr. simpl in Hr. apply filter_In in Hr. destruct Hr as [_ Hr].
    destruct (sc_recipe r =? pk) eqn:E; [discriminate|]. apply Z.eqb_neq. exact E.
  - intros ri Hri. simpl in Hri. apply filter_In in Hri. destruct Hri as [_ Hri].
    destruct (ri_recipe ri =? pk) eqn:E; [discriminate|]. apply Z.eqb_neq. exact E.
  - intros [Hcart Hri]. split.
    + intros r Hr. simpl in Hr. apply filter_In in Hr. destruct Hr as [Hr Hb].
      destruct (sc_recipe r =? pk) eqn:E; [discriminate|]. apply Z.eqb_neq in E.
      rewrite (find_recipe_after_delete db E). apply Hcart. exact Hr.
    + intros ri Hr. simpl in Hr. apply filter_In in Hr. destruct Hr as [Hr _].
      apply Hri. exact Hr.
Qed.

(* ================================================================== *)
(** * Permissions *)

(** X12.  [has_permission] refuses a request in one case only: the action
    name is one of "POST", "PUT", "PATCH", "DELETE" and the user is
    anonymous.  Every other action name, and a missing one, passes for
    everybody, logged in or not. *)
Theorem has_permission_refuses_only : forall request view,
  has_permission request view = false <->
  py_in (action view) NOT_SAFE_METHOD = true /\
  request_user request = AnonymousUser.
Proof.
  intros [user method] [[a|]]; unfold has_permission; simpl.
  - destruct (String.eqb a "GET") eqn:E1.
    { apply String.eqb_eq in E1. subst a. simpl. split; [discriminate|].
      intros [H _]; discriminate. }
    destruct (String.eqb a "HEAD") eqn:E2.
    { apply String.eqb_eq in E2. subst a. simpl. split; [discriminate|].
      intros [H _]; discriminate. }
    destruct (String.eqb a "OPTIONS") eqn:E3.
    { apply String.eqb_eq in E3. subst a. simpl. split; [discriminate|].
      intros [H _]; discriminate. }
    simpl.
    destruct (String.eqb a "POST" || (String.eqb a "PUT"
              || (String.eqb a "PATCH" || (String.eqb a "DELETE" || false)))).
    + destruct user; simpl; split; auto; try discriminate.
      intros [_ H]; discriminate.
    + split; [discriminate|]. intros [H _]; discriminate.
  - split; [discriminate|]. intros [H _]; discriminate.
Qed.

(** X13.  [has_object_permission] returns [None], which DRF reads as a
    refusal, whenever the action name is not one of "GET", "HEAD",
    "OPTIONS" and the request method is not one of "POST", "PUT", "PATCH",
    "DELETE": nobody, not even the author or a superuser, passes it. *)
Theorem read_request_falls_through : forall request view obj,
  py_in (action view) SAFE_METHODS = false ->
  py_in (Some (request_method request)) NOT_SAFE_METHOD = false ->
  has_object_permission request view obj = None /\
  granted (has_object_permission request view obj) = false.
Proof.
  intros request view obj Ha Hm. unfold has_object_permission.
  rewrite Ha, Hm. simpl. split; reflexivity.
Qed.

Lemma read_request_falls_through_witness :
  has_object_permission
    (mk_Request (LoggedIn (mk_User 1 true true)) "GET") (mk_View (Some "retrieve"))
    (mk_Recipe 10 1 "Cake" "Bake." 60 sample_now) = None /\
  granted (has_object_permission
    (mk_Request (LoggedIn (mk_User 1 true true)) "GET") (mk_View (Some "retrieve"))
    (mk_Recipe 10 1 "Cake" "Bake." 60 sample_now)) = false.
Proof.
  apply (@read_request_falls_through
           (mk_Request (LoggedIn (mk_User 1 true true)) "GET")
           (mk_View (Some "retrieve"))
           (mk_Recipe 10 1 "Cake" "Bake." 60 sample_now)); reflexivity.
Defined.

(** X14.  [has_object_permission] lets a request through exactly when the
    action name is one of "GET", "HEAD", "OPTIONS", or the method is one of
    "POST", "PUT", "PATCH", "DELETE" and the user is logged in and is the
    author of the object, a superuser or an admin.  An anonymous user
    passes in the first case only. *)
Theorem object_permission_granted_iff : forall request view obj,
  (granted (has_object_permission request view obj) = true <->
   py_in (action view) SAFE_METHODS = true \/
   (py_in (Some (request_method request)) NOT_SAFE_METHOD = true /\
    exists u, request_user request = LoggedIn u /\
      (user_pk u = recipe_author obj \/ is_superuser u = true \/ is_admin u = true))) /\
  (request_user request = AnonymousUser ->
   granted (has_object_permission request view obj) = py_in (action view) SAFE_METHODS).
Proof.
  intros [user method] view obj. unfold has_object_permission. simpl request_user.
  simpl request_method. split.
  - destruct (py_in (action view) SAFE_METHODS); [simpl; tauto|].
    destruct (py_in (Some method) NOT_SAFE_METHOD); simpl.
    + destruct user as [|u]; simpl.
      * split; [discriminate|]. intros [H|(_ & u & H & _)]; discriminate.
      * destruct (user_pk u =? recipe_author obj) eqn:E; simpl.
        { apply Z.eqb_eq in E. split; [|reflexivity]. intros _. right.
          split; [reflexivity|]. exists u. tauto. }
        apply Z.eqb_neq in E.
        destruct (is_superuser u) eqn:Es; simpl.
        { split; [|reflexivity]. intros _. right. split; [reflexivity|].
          exists u. tauto. }
        destruct (is_admin u) eqn:Ead; simpl.
        { split; [|reflexivity]. intros _. right. split; [reflexivity|].
          exists u. tauto. }
        split; [discriminate|].
        intros [H|(_ & u' & Hu & [H|[H|H]])]; try discriminate;
          injection Hu as <-; congruence.
    + split; [discriminate|]. intros [H|[H _]]; discriminate.
  - intros ->. destruct (py_in (action view) SAFE_METHODS); [reflexivity|].
    rewrite andb_false_r. reflexivity.
Qed.

(* ================================================================== *)
(** * The token serializer *)

Lemma attrs_get_set_same : forall attrs k v,
  attrs_get (attrs_set attrs k v) k = Some v.
Proof.
  induction attrs as [|[k0 w] attrs IH]; intros k v; simpl.
  - rewrite String.eqb_refl. reflexivity.
  - destruct (String.eqb k0 k) eqn:E; simpl; rewrite E; auto.
Qed.

Lemma attrs_get_set_other : forall attrs k k' v,
  k' <> k -> attrs_get (attrs_set attrs k v) k' = attrs_get attrs k'.
Proof.
  induction attrs as [|[k0 w] attrs IH]; intros k k' v Hne; simpl.
  - destruct (String.eqb k k') eqn:E; [|reflexivity].
    apply String.eqb_eq in E. congruence.
  - destruct (String.eqb k0 k) eqn:E; simpl.
    + apply String.eqb_eq in E. subst k0.
      destruct (String.eqb k k') eqn:E'; [|reflexivity].
      apply String.eqb_eq in E'. congruence.
    + destruct (String.eqb k0 k'); [reflexivity|]. apply IH. exact Hne.
Qed.

(** X15.  [validate] returns attributes only for credentials that are both
    present and non-empty and that [authenticate] accepted; the attributes
    returned hold that user under "user" and are otherwise the ones given.
    With an email or a password missing or empty it fails with the "Must
    include" message without regard to [authenticate]; every failure
    carries the code "authorization". *)
Theorem validate_adds_authenticated_user : forall authenticate attrs,
  (forall attrs',
     validate authenticate attrs = Valid attrs' ->
     truthy (attrs_get attrs "email") = true /\
     truthy (attrs_get attrs "password") = true /\
     exists u,
       authenticate (attrs_get attrs "email") (attrs_get attrs "password") = Some u /\
       attrs_get attrs' "user" = Some (VUser u) /\
       forall k, k <> "user" -> attrs_get attrs' k = attrs_get attrs k) /\
  (forall u,
     truthy (attrs_get attrs "email") = true ->
     truthy (attrs_get attrs "password") = true ->
     authenticate (attrs_get attrs "email") (attrs_get attrs "password") = Some u ->
     exists attrs', validate authenticate attrs = Valid attrs') /\
  (forall authenticate',
     truthy (attrs_get attrs "email") && truthy (attrs_get attrs "password") = false ->
     validate authenticate' attrs = ValidationError msg_must_include "authorization") /\
  (forall msg code,
     validate authenticate attrs = ValidationError msg code -> code = "authorization").
Proof.
  intros authenticate attrs. unfold validate. split; [|split; [|split]].
  - intros attrs' H.
    destruct (truthy (attrs_get attrs "email")); [|discriminate].
    destruct (truthy (attrs_get attrs "password")); [|discriminate].
    simpl in H.
    destruct (authenticate _ _) as [u|]; [|discriminate].
    injection H as <-. split; [reflexivity|]. split; [reflexivity|].
    exists u. split; [reflexivity|]. split.
    + apply attrs_get_set_same.
    + intros k Hk. apply attrs_get_set_other. exact Hk.
  - intros u -> -> ->. simpl. eauto.
  - intros authenticate' ->. reflexivity.
  - intros msg code H.
    destruct (truthy _ && truthy _).
    + destruct (authenticate _ _); [discriminate|]. injection H as _ <-. reflexivity.
    + injection H as _ <-. reflexivity.
Qed.

Example validate_accepts :
  validate (fun _ _ => Some (mk_User 7 false false))
           [("email", VStr "a@b.c"); ("password", VStr "secret")]
  = Valid [("email", VStr "a@b.c"); ("password", VStr "secret");
           ("user", VUser (mk_User 7 false false))].
Proof. reflexivity. Qed.

Example validate_empty_password :
  validate (fun _ _ => Some (mk_User 7 false false))
           [("email", VStr "a@b.c"); ("password", VStr "")]
  = ValidationError msg_must_include "authorization".
Proof. reflexivity. Qed.

(* ================================================================== *)
(** * Favorites *)

(** What the favorite view does on [get], case by case. *)
Lemma FavoriteViewSet_get_cases : forall is_valid save user recipe_id now s,
  FavoriteViewSet_get is_valid save user recipe_id now s =
  match Favorite_filter s user recipe_id with
  | _ :: _ => (Ok (mk_Reply 400 (PayMessage "Рецепт уже добавлен в избранное")), s)
  | [] =>
      if is_valid s user recipe_id then
        match save user recipe_id now s with
        | (Ok row, s') => (Ok (mk_Reply 201 (PayData row)), s')
        | (Raise e, s') => (Raise e, s')
        end
      else (Ok (mk_Reply 400 PayErrors), s)
  end.
Proof.
  intros is_valid save user recipe_id now s.
  unfold FavoriteViewSet_get, vbind, get_site, vret.
  destruct (Favorite_filter s user recipe_id) as [|r rows]; simpl; [|reflexivity].
  destruct (is_valid s user recipe_id); simpl; [|reflexivity].
  destruct (save user recipe_id now s) as [[row|e] s']; reflexivity.
Qed.

(** What the favorite view does on [delete], case by case. *)
Lemma FavoriteViewSet_delete_cases : forall user recipe_id s,
  FavoriteViewSet_delete user recipe_id s =
  match find_recipe (site_db s) recipe_id with
  | Raise DoesNotExist => (Raise Http404, s)
  | Raise e => (Raise e, s)
  | Ok recipe =>
      match Favorite_filter s user recipe_id with
      | [] => (Ok (mk_Reply 400 PayNone), s)
      | [row] =>
          (Ok (mk_Reply 204 PayNone),
           mk_Site (site_db s)
                   (filter (fun r => negb (fav_id r =? fav_id row)) (favorite s))
                   (follow s) (users s))
      | _ :: _ :: _ => (Raise MultipleObjectsReturned, s)
      end
  end.
Proof.
  intros user recipe_id [db fav fol us].
  unfold FavoriteViewSet_delete, in_db, get_Recipe_or_404, find_recipe, vbind, bind,
    get_db, get_site, vret, vlift, ret, raise, Favorite_delete, put_site. simpl.
  destruct (get_one (filter _ (recipes db))) as [recipe|[]] eqn:Hrec; simpl;
    try reflexivity.
  assert (Hpk : recipe_pk recipe = recipe_id)
    by (apply (@find_recipe_pk db); exact Hrec).
  rewrite Hpk. unfold Favorite_filter. simpl.
  destruct (filter _ fav) as [|row [|row' rows]] eqn:E; simpl; rewrite ?E; reflexivity.
Qed.

Lemma Favorite_filter_In : forall s user recipe row,
  In row (Favorite_filter s user recipe) <->
  In row (favorite s) /\ fav_user row = user /\ fav_recipe row = recipe.
Proof.
  intros s user recipe row. unfold Favorite_filter. rewrite filter_In.
  rewrite andb_true_iff, !Z.eqb_eq. tauto.
Qed.

(** X16.  The favorite view answers 400 "Рецепт уже добавлен в избранное"
    and leaves the state alone exactly when the (user, recipe) pair is
    already in the table, whatever the serializer would do; when the pair
    is new and the serializer rejects the data, the state is unchanged as
    well: only [save()] can change it. *)
Theorem favorite_duplicate_refused : forall is_valid save user recipe_id now s,
  ((exists row, In row (favorite s) /\ fav_user row = user /\ fav_recipe row = recipe_id)
   <-> FavoriteViewSet_get is_valid save user recipe_id now s
       = (Ok (mk_Reply 400 (PayMessage "Рецепт уже добавлен в избранное")), s)) /\
  (is_valid s user recipe_id = false ->
   snd (FavoriteViewSet_get is_valid save user recipe_id now s) = s).
Proof.
  intros is_valid save user recipe_id now s.
  rewrite FavoriteViewSet_get_cases. split.
  - split.
    + intros (row & Hrow). apply Favorite_filter_In in Hrow.
      destruct (Favorite_filter s user recipe_id); [contradiction|reflexivity].
    + destruct (Favorite_filter s user recipe_id) as [|row rows] eqn:E.
      * destruct (is_valid s user recipe_id); [|discriminate].
        destruct (save user recipe_id now s) as [[row|e] s']; discriminate.
      * intros _. exists row. apply Favorite_filter_In. rewrite E. left. reflexivity.
  - intros Hv. destruct (Favorite_filter s user recipe_id); [|reflexivity].
    rewrite Hv. reflexivity.
Qed.

(** X17.  When the favorite view answers 204 to [delete], it has removed a
    row that was in the table under that user and recipe, and has left the
    cart tables, the subscriptions and the users alone; a table without a
    repeated (user, recipe) pair stays so; and a second [delete] of the
    same recipe by the same user answers 400 and changes nothing. *)
Theorem favorite_removed_once : forall user recipe_id s resp s1,
  FavoriteViewSet_delete user recipe_id s = (Ok resp, s1) ->
  reply_status resp = 204 ->
  (exists row,
     In row (favorite s) /\ fav_user row = user /\ fav_recipe row = recipe_id /\
     s1 = mk_Site (site_db s)
            (filter (fun r => negb (fav_id r =? fav_id row)) (favorite s))
            (follow s) (users s)) /\
  (favorite_unique s -> favorite_unique s1) /\
  FavoriteViewSet_delete user recipe_id s1 = (Ok (mk_Reply 400 PayNone), s1).
Proof.
  intros user recipe_id s resp s1 H Hs.
  rewrite FavoriteViewSet_delete_cases in H.
  destruct (find_recipe (site_db s) recipe_id) as [recipe|[]] eqn:Hrec;
    try discriminate.
  destruct (Favorite_filter s user recipe_id) as [|row [|row' rows]] eqn:E;
    try discriminate; injection H as <- <-; [simpl in Hs; discriminate|].
  assert (Hrow : In row (Favorite_filter s user recipe_id))
    by (rewrite E; left; reflexivity).
  apply Favorite_filter_In in Hrow. destruct Hrow as (Hin & Hu & Hr).
  split; [|split].
  - exists row. repeat split; assumption.
  - unfold favorite_unique. simpl. apply NoDup_map_filter.
  - rewrite FavoriteViewSet_delete_cases. simpl site_db. rewrite Hrec.
    unfold Favorite_filter in *. simpl favorite.
    rewrite filter_filter_comm, E. simpl. rewrite Z.eqb_refl. reflexivity.
Qed.

Lemma favorite_removed_once_witness :
  (exists row,
     In row (favorite sample_site) /\ fav_user row = 1 /\ fav_recipe row = 10 /\
     snd (FavoriteViewSet_delete 1 10 sample_site)
     = mk_Site (site_db sample_site)
         (filter (fun r => negb (fav_id r =? fav_id row)) (favorite sample_site))
         (follow sample_site) (users sample_site)) /\
  (favorite_unique sample_site ->
   favorite_unique (snd (FavoriteViewSet_delete 1 10 sample_site))) /\
  FavoriteViewSet_delete 1 10 (snd (FavoriteViewSet_delete 1 10 sample_site))
  = (Ok (mk_Reply 400 PayNone), snd (FavoriteViewSet_delete 1 10 sample_site)).
Proof.
  apply (@favorite_removed_once 1 10 sample_site (mk_Reply 204 PayNone)).
  - reflexivity.
  - reflexivity.
Defined.

(* ================================================================== *)
(** * Subscriptions *)

Lemma Follow_filter_In : forall s user author row,
  In row (Follow_filter s user author) <->
  In row (follow s) /\ follow_user row = user /\ follow_author row = author.
Proof.
  intros s user author row. unfold Follow_filter. rewrite filter_In.
  rewrite andb_true_iff, !Z.eqb_eq. tauto.
Qed.

(** What the subscription view does on [get], case by case. *)
Lemma FollowViewSet_get_cases : forall is_valid save user author_id now s,
  FollowViewSet_get is_valid save user author_id now s =
  if (user =? author_id) || exists_ (Follow_filter s user author_id) then
    (Ok (mk_Reply 400 (PayMessage "Невозможно подписаться на самого себя")), s)
  else if is_valid s user author_id then
    match save user author_id now s with
    | (Ok row, s') => (Ok (mk_Reply 201 (PayData row)), s')
    | (Raise e, s') => (Raise e, s')
    end
  else (Ok (mk_Reply 400 PayErrors), s).
Proof.
  intros is_valid save user author_id now s.
  unfold FollowViewSet_get, vbind, get_site, vret.
  destruct ((user =? author_id) || exists_ (Follow_filter s user author_id));
    simpl; [reflexivity|].
  destruct (is_valid s user author_id); simpl; [|reflexivity].
  destruct (save user author_id now s) as [[row|e] s']; reflexivity.
Qed.

(** What the subscription view does on [delete], case by case. *)
Lemma FollowViewSet_delete_cases : forall user author_id s,
  FollowViewSet_delete user author_id s =
  match get_or_404 (filter (fun u => user_pk u =? author_id) (users s)) with
  | Raise e => (Raise e, s)
  | Ok author =>
      match get_or_404 (Follow_filter s user (user_pk author)) with
      | Raise e => (Raise e, s)
      | Ok record =>
          (Ok (mk_Reply 204 PayNone),
           mk_Site (site_db s) (favorite s)
                   (filter (fun r => negb (follow_id r =? follow_id record)) (follow s))
                   (users s))
      end
  end.
Proof.
  intros user author_id s.
  unfold FollowViewSet_delete, vbind, get_site, vlift, vret, Follow_delete, put_site.
  destruct (get_or_404 (filter _ (users s))) as [author|e]; [|reflexivity].
  destruct (get_or_404 (Follow_filter s user (user_pk author))) as [record|e];
    reflexivity.
Qed.

Lemma get_or_404_Ok : forall R (rows : list R) r,
  get_or_404 rows = Ok r <-> rows = [r].
Proof.
  intros R rows r. unfold get_or_404, get_one.
  destruct rows as [|a [|b rows]]; split; intros H; try discriminate.
  - injection H as <-. reflexivity.
  - injection H as <-. reflexivity.
Qed.

(** X18.  The subscription view answers 400 "Невозможно подписаться на
    самого себя" and leaves the state alone exactly when the user names
    himself or already follows the author, whatever the serializer would
    do: a subscription to oneself never reaches [save()].  When the
    serializer rejects the data the state is unchanged as well. *)
Theorem follow_self_or_twice_refused : forall is_valid save user author_id now s,
  ((user = author_id \/
    exists row, In row (follow s) /\ follow_user row = user /\ follow_author row = author_id)
   <-> FollowViewSet_get is_valid save user author_id now s
       = (Ok (mk_Reply 400 (PayMessage "Невозможно подписаться на самого себя")), s)) /\
  (is_valid s user author_id = false ->
   snd (FollowViewSet_get is_valid save user author_id now s) = s).
Proof.
  intros is_valid save user author_id now s.
  rewrite FollowViewSet_get_cases. split.
  - split.
    + intros [->|(row & Hrow)].
      * rewrite Z.eqb_refl. reflexivity.
      * apply Follow_filter_In in Hrow.
        destruct (Follow_filter s user author_id); [contradiction|].
        rewrite orb_true_r. reflexivity.
    + destruct (user =? author_id) eqn:Eu.
      * intros _. left. apply Z.eqb_eq. exact Eu.
      * simpl. destruct (Follow_filter s user author_id) as [|row rows] eqn:E; simpl.
        -- destruct (is_valid s user author_id); [|discriminate].
           destruct (save user author_id now s) as [[row|e] s']; discriminate.
        -- intros _. right. exists row. apply Follow_filter_In. rewrite E.
           left. reflexivity.
  - intros Hv.
    destruct ((user =? author_id) || exists_ (Follow_filter s user author_id));
      [reflexivity|].
    rewrite Hv. reflexivity.
Qed.

Lemma get_queryset_In : forall s user u,
  In u (ListFollowViewSet_get_queryset s user) <->
  In u (users s) /\
  exists f, In f (follow s) /\ follow_user f = user /\ follow_author f = user_pk u.
Proof.
  intros s user u. unfold ListFollowViewSet_get_queryset. rewrite in_flat_map. split.
  - intros (u' & Hu' & Hin). apply in_map_iff in Hin.
    destruct Hin as (f & <- & Hf). apply filter_In in Hf. destruct Hf as [Hf Hb].
    apply andb_prop in Hb. destruct Hb as [Ha Hb].
    apply Z.eqb_eq in Ha. apply Z.eqb_eq in Hb.
    split; [exact Hu'|]. exists f. tauto.
  - intros (Hu & f & Hf & Hfu & Hfa). exists u. split; [exact Hu|].
    apply in_map_iff. exists f. split; [reflexivity|].
    apply filter_In. split; [exact Hf|]. rewrite Hfu, Hfa, !Z.eqb_refl. reflexivity.
Qed.

(** X19.  Unsubscribing: when no user has the given key, or the user does
    not follow that author, the view raises [Http404] and changes nothing.
    When it answers, the answer is 204: it has removed a [Follow] row of
    that user and author and nothing else, the author is no longer among
    the user's subscriptions, and a second call raises [Http404]. *)
Theorem unfollow_outcomes : forall user author_id s,
  ((forall u, In u (users s) -> user_pk u <> author_id) ->
   FollowViewSet_delete user author_id s = (Raise Http404, s)) /\
  (forall author,
     filter (fun u => user_pk u =? author_id) (users s) = [author] ->
     (forall f, In f (follow s) -> follow_user f = user -> follow_author f <> author_id) ->
     FollowViewSet_delete user author_id s = (Raise Http404, s)) /\
  (forall resp s1,
     FollowViewSet_delete user author_id s = (Ok resp, s1) ->
     resp = mk_Reply 204 PayNone /\
     (exists row,
        In row (follow s) /\ follow_user row = user /\ follow_author row = author_id /\
        s1 = mk_Site (site_db s) (favorite s)
               (filter (fun r => negb (follow_id r =? follow_id row)) (follow s))
               (users s)) /\
     (forall u, In u (ListFollowViewSet_get_queryset s1 user) -> user_pk u <> author_id) /\
     FollowViewSet_delete user author_id s1 = (Raise Http404, s1)).
Proof.
  intros user author_id s. split; [|split].
  - intros Hnone. rewrite FollowViewSet_delete_cases.
    rewrite filter_none; [reflexivity|].
    intros u Hu. apply Z.eqb_neq. apply Hnone. exact Hu.
  - intros author Hauthor Hnot. rewrite FollowViewSet_delete_cases, Hauthor. simpl.
    assert (Hpk : user_pk author = author_id).
    { assert (Hin : In author (filter (fun u => user_pk u =? author_id) (users s)))
        by (rewrite Hauthor; left; reflexivity).
      apply filter_In in Hin. apply Z.eqb_eq. tauto. }
    rewrite Hpk. unfold Follow_filter. rewrite filter_none; [reflexivity|].
    intros f Hf. destruct (follow_user f =? user) eqn:Eu; [|reflexivity].
    apply Z.eqb_eq in Eu. simpl. apply Z.eqb_neq. apply Hnot; assumption.
  - intros resp s1 H. rewrite FollowViewSet_delete_cases in H.
    destruct (get_or_404 (filter _ (users s))) as [author|e] eqn:Hauthor;
      [|discriminate].
    apply get_or_404_Ok in Hauthor.
    assert (Hpk : user_pk author = author_id).
    { assert (Hin : In author (filter (fun u => user_pk u =? author_id) (users s)))
        by (rewrite Hauthor; left; reflexivity).
      apply filter_In in Hin. apply Z.eqb_eq. tauto. }
    rewrite Hpk in H.
    destruct (get_or_404 (Follow_filter s user author_id)) as [row|e] eqn:Hrow;
      [|discriminate].
    apply get_or_404_Ok in Hrow. injection H as <- <-.
    assert (Hin : In row (Follow_filter s user author_id))
      by (rewrite Hrow; left; reflexivity).
    apply Follow_filter_In in Hin. destruct Hin as (Hin & Hu & Ha).
    split; [reflexivity|]. split; [|split].
    + exists row. repeat split; assumption.
    + intros u Hq Hupk. apply get_queryset_In in Hq.
      destruct Hq as (_ & f & Hf & Hfu & Hfa). simpl in Hf.
      apply filter_In in Hf. destruct Hf as [Hf Hid].
      assert (Hfr : In f (Follow_filter s user author_id)).
      { apply Follow_filter_In. repeat split; congruence. }
      rewrite Hrow in Hfr. destruct Hfr as [<-|[]].
      rewrite Z.eqb_refl in Hid. discriminate.
    + rewrite FollowViewSet_delete_cases. simpl users. rewrite Hauthor. simpl.
      rewrite Hpk. unfold Follow_filter in *. simpl follow.
      rewrite filter_filter_comm, Hrow. simpl. rewrite Z.eqb_refl. reflexivity.
Qed.

Lemma filter_same_key_short : forall A B (f : A -> B) (p : A -> bool) (k : B) l,
  NoDup (map f l) ->
  (forall a, In a l -> p a = true -> f a = k) ->
  filter p l = [] \/ exists a, filter p l = [a].
Proof.
  intros A B f p k l. induction l as [|a l IH]; simpl; intros ND Hk; [left; reflexivity|].
  inversion ND as [|? ? Ha ND']; subst.
  destruct (p a) eqn:Pa.
  - right. exists a. f_equal. apply filter_none.
    intros b Hb. destruct (p b) eqn:Pb; [|reflexivity]. exfalso. apply Ha.
    rewrite (Hk a (or_introl eq_refl) Pa), <- (Hk b (or_intror Hb) Pb).
    apply in_map. exact Hb.
  - apply IH; [exact ND'|]. intros b Hb. apply Hk. right. exact Hb.
Qed.

(** X20.  The subscription list of a user holds exactly the users that some
    [Follow] row of his names as author, and nobody who is not in the user
    table.  With distinct user keys and no repeated (user, author) pair it
    holds each of them once. *)
Theorem subscriptions_listed_once : forall s user,
  (forall u,
     In u (ListFollowViewSet_get_queryset s user) <->
     In u (users s) /\
     exists f, In f (follow s) /\ follow_user f = user /\ follow_author f = user_pk u) /\
  (NoDup (map user_pk (users s)) -> follow_unique s ->
   NoDup (map user_pk (ListFollowViewSet_get_queryset s user))).
Proof.
  intros s user. split; [intros u; apply get_queryset_In|].
  intros NDu NDf. unfold ListFollowViewSet_get_queryset.
  induction (users s) as [|u us IH]; simpl; [constructor|].
  inversion NDu as [|? ? Hu NDu']; subst.
  rewrite map_app. apply NoDup_app.
  - destruct (@filter_same_key_short _ _ (fun f => (follow_user f, follow_author f))
                (fun f => (follow_author f =? user_pk u) && (follow_user f =? user))
                (user, user_pk u) (follow s) NDf) as [->|[a ->]].
    + intros f _ Hb. apply andb_prop in Hb. destruct Hb as [Ha Hb].
      apply Z.eqb_eq in Ha. apply Z.eqb_eq in Hb. congruence.
    + constructor.
    + simpl. constructor; [intros []|constructor].
  - apply IH. exact NDu'.
  - intros k Hk1 Hk2. apply Hu.
    apply in_map_iff in Hk1. destruct Hk1 as (u1 & <- & Hu1).
    apply in_map_iff in Hu1. destruct Hu1 as (f & <- & _).
    apply in_map_iff in Hk2. destruct Hk2 as (u2 & E & Hu2).
    apply in_flat_map in Hu2. destruct Hu2 as (u3 & Hu3 & Hin).
    apply in_map_iff in Hin. destruct Hin as (f' & <- & _).
    rewrite <- E. apply in_map. exact Hu3.
Qed.

Example subscriptions_of_user_1 :
  ListFollowViewSet_get_queryset sample_site 1 = [mk_User 2 false false].
Proof. reflexivity. Qed.

Example unfollow_then_list :
  ListFollowViewSet_get_queryset (snd (FollowViewSet_delete 1 2 sample_site)) 1 = [].
Proof. reflexivity. Qed.

Example unfollow_stranger :
  FollowViewSet_delete 1 3 sample_site = (Raise Http404, sample_site).
Proof. reflexivity. Qed.

(* ================================================================== *)
(** * The size of a total *)

Lemma sum_Z_bounds : forall zs hi,
  (forall z, In z zs -> 0 <= z <= hi) ->
  0 <= sum_Z zs <= hi * Z.of_nat (length zs).
Proof.
  induction zs as [|z zs IH]; intros hi H.
  - simpl. lia.
  - assert (Hz : 0 <= z <= hi) by (apply H; left; reflexivity).
    assert (Hr : 0 <= sum_Z zs <= hi * Z.of_nat (length zs))
      by (apply IH; intros y Hy; apply H; right; exact Hy).
    simpl sum_Z. simpl length. rewrite Nat2Z.inj_succ. lia.
Qed.

(** X21.  Amounts are stored in a [PositiveSmallIntegerField], which holds
    0 to 32767.  When every amount reached from the cart is in that range,
    each integer total of the list lies between 0 and 32767 times the
    number of lines of its name: totals are not clipped to the range of the
    column. *)
Theorem totals_are_bounded_by_line_count : forall user db bl db',
  build_buying_list user db = (Ok bl, db') ->
  exists lines,
    cart_lines db user = Some lines /\
    ((forall l z, In l lines -> line_amount l = Some z -> 0 <= z <= 32767) ->
     forall n e z,
       In (n, e) bl -> entry_amount e = Some z ->
       0 <= z <= 32767 * Z.of_nat (length (lines_named n lines))).
Proof.
  intros user db bl db' H.
  destruct (build_ok_lines _ _ H) as (_ & lines & Hlines & Hacc).
  exists lines. split; [exact Hlines|].
  intros Hrange n e z HIn Hz.
  pose proof (accumulate_all_entry_amount _ _ _ Hacc HIn) as Ha.
  rewrite Hz in Ha. destruct Ha as (zs & Hzs & ->).
  assert (Hlen : length zs = length (lines_named n lines)).
  { rewrite <- (length_map Some zs), <- Hzs, length_map. reflexivity. }
  rewrite <- Hlen. apply sum_Z_bounds.
  intros y Hy.
  assert (Hin : In (Some y) (map line_amount (lines_named n lines))).
  { rewrite Hzs. apply in_map. exact Hy. }
  apply in_map_iff in Hin. destruct Hin as (l & Hl & Hm).
  apply filter_In in Hm. apply (Hrange l y); tauto.
Qed.

Lemma totals_are_bounded_by_line_count_witness :
  exists lines,
    cart_lines sample_db 1 = Some lines /\
    ((forall l z, In l lines -> line_amount l = Some z -> 0 <= z <= 32767) ->
     forall n e z,
       In (n, e) [("Flour", mk_Entry "gram" (Some 200));
                  ("Sugar", mk_Entry "gram" (Some 150))] ->
       entry_amount e = Some z ->
       0 <= z <= 32767 * Z.of_nat (length (lines_named n lines))).
Proof.
  apply (@totals_are_bounded_by_line_count 1 sample_db _ sample_db). reflexivity.
Defined.
